(** * getpdb: fetch-and-fallback resolution of molecular structure files

    A shallow embedding of [getpdb.py] (version 0.2.0).  The program asks
    up to four public databases for a structure file and writes the first
    answer it gets to a local file.  Its effects -- HTTP requests, logging
    calls and filesystem calls -- are modelled by explicit state passing
    over a [world] that records every call in order, against an
    environment [env] that decides what the network, the gzip decoder and
    the disk answer.  A logging call is recorded whatever the level of the
    logger, which only decides what reaches the console. *)

From stdpp Require Import gmap strings list sorting.
From stdpp Require Import pretty.
From Stdlib Require Import ZArith Ascii String Lia.

Set Warnings "-register-all".

Open Scope string_scope.
Open Scope list_scope.

(** ** Text

    Python [str] values are modelled as [string]; identifiers and type
    tags of the four databases are ASCII text, and the case mappings below
    are those of ASCII (every other character is left as it is). *)

Definition nl : ascii := ascii_of_nat 10.
Definition slash : ascii := ascii_of_nat 47.

Definition lower_char (c : ascii) : ascii :=
  let n := nat_of_ascii c in
  if (65 <=? n)%nat && (n <=? 90)%nat then ascii_of_nat (n + 32) else c.

Definition upper_char (c : ascii) : ascii :=
  let n := nat_of_ascii c in
  if (97 <=? n)%nat && (n <=? 122)%nat then ascii_of_nat (n - 32) else c.

(** [str.lower()] and [str.upper()]. *)
Fixpoint lower (s : string) : string :=
  match s with
  | EmptyString => EmptyString
  | String c s' => String (lower_char c) (lower s')
  end.

Fixpoint upper (s : string) : string :=
  match s with
  | EmptyString => EmptyString
  | String c s' => String (upper_char c) (upper s')
  end.

(** [s.split(sep)] for a one-character separator: never an empty list. *)
Fixpoint split (sep : ascii) (s : string) : list string :=
  match s with
  | EmptyString => [EmptyString]
  | String c s' =>
      if Ascii.eqb c sep then EmptyString :: split sep s'
      else match split sep s' with
           | [] => [String c EmptyString]
           | l :: ls => String c l :: ls
           end
  end.

(** Truthiness of an optional text argument: [None] and [""] are false. *)
Definition truthy (o : option string) : bool :=
  match o with
  | None => false
  | Some s => negb (String.eqb s "")
  end.

(** The text of an argument already known to be truthy. *)
Definition the (o : option string) : string := default "" o.

(** ** Configuration *)

Definition FILE_DEFAULT_SMALL : string := "sdf".
Definition FILE_DEFAULT_LARGE : string := "cif".

(** The registry is a [dict] literal: iteration follows insertion order,
    so it is kept as an association list. *)
Definition DATABASE_HOSTS : list (string * list string) :=
  [ ("rcsb", ["pdb"; "cif"; "bcif"; "xml"]);
    ("rcsb-ligand", ["cif"; "sdf"; "mol2"]);
    ("pubchem", ["sdf"; "json"; "xml"; "asnt"]);
    ("alphafold", ["cif"; "bcif"; "pdb"]) ].

(** [DATABASE_HOSTS.keys()] *)
Definition keys (d : list (string * list string)) : list string := d.*1.

(** [DATABASE_HOSTS.get(host)] *)
Fixpoint get (d : list (string * list string)) (host : string)
  : option (list string) :=
  match d with
  | [] => None
  | (k, v) :: d' => if String.eqb k host then Some v else get d' host
  end.

(** Lines 135-140 of [getpdb]: the file type used when none is given. *)
Definition resolve_type (code : string) (type : option string) : string :=
  if truthy type then the type
  else if (String.length code <? 4)%nat then FILE_DEFAULT_SMALL
       else FILE_DEFAULT_LARGE.

(** ** Values exchanged with the outside *)

(** Exceptions, all subclasses of Python's [Exception].  Interrupts of the
    interpreter ([KeyboardInterrupt], [SystemExit]) are not raised by any
    call of the program and are not modelled. *)
Inductive exn : Type :=
  | RequestException            (* requests.get: no connection, TLS failure *)
  | InvalidURL                  (* requests.get on something that is no text *)
  | HTTPError (status : Z)      (* response.raise_for_status() *)
  | BadGzipFile                 (* gzip.decompress *)
  | UnicodeDecodeError          (* bytes.decode("ascii") *)
  | JSONDecodeError             (* response.json() *)
  | IndexError
  | KeyError (key : string)
  | TypeError
  | OSError (errno : string)    (* os.makedirs, open, print *)
  | InvalidFileType (type : string)  (* Exception("Invalid file type ...") *)
  | UnknownHost (host : string).     (* Exception("Unknown host ...") *)

(** A parsed JSON document; an object keeps its members in order and a
    lookup takes the first one with the key. *)
Inductive jvalue : Type :=
  | JNull
  | JBool (b : bool)
  | JNum (n : Z)
  | JStr (s : string)
  | JArr (items : list jvalue)
  | JObj (members : list (string * jvalue)).

(** What [requests.get] returns: the status, the raw body, the body decoded
    as text, and the body parsed as JSON ([None] where it does not parse). *)
Record response : Type := {
  status_code : Z;
  content : string;
  text : string;
  json : option jvalue
}.

Inductive level : Type := INFO | WARNING | ERROR.

(** The messages the program logs, by the place that logs them. *)
Inductive message : Type :=
  | MsgFetching (url : jvalue)           (* "Fetching from '{url}'" *)
  | MsgNoSupport (host type : string)    (* "Host '{host}' does not support '{type}' type" *)
  | MsgException (error : exn)           (* logging.warning(error), logging.error(error) *)
  | MsgCouldNotFetch (code type : string)  (* "Could not fetch '{code}.{type}'" *)
  | MsgWriting (output : string)         (* "Writing output to '{output}'" *)
  | MsgFinished.                         (* "Finished" *)

(** A file is named by whether its path is absolute and by the components
    of the path. *)
Abbreviation fpath := (bool * list string)%type.

(** Every call that leaves the program.  An [EvGet] also carries the name
    of the branch of [_getpdb] that made the call. *)
Inductive event : Type :=
  | EvGet (host url : string) (verify : bool)   (* requests.get(url, verify=verify) *)
  | EvLog (lvl : level) (msg : message)         (* logging.info / warning / error *)
  | EvMakedirs (path : string)                  (* os.makedirs(path, exist_ok=True) *)
  | EvOpen (path : string)                      (* open(path, "w") *)
  | EvPrint (handle : fpath) (line : string).   (* print(line, file=handle) *)

(** ** The filesystem

    A POSIX tree without symbolic links: a finite map from paths to
    directories and regular files, and the handles that are open. A
    component [".."] is not interpreted. *)
Inductive node : Type :=
  | Dir
  | File (data : string).

Record filesystem : Type := {
  fs_nodes : gmap fpath node;
  fs_open : list fpath
}.

Definition is_component (c : string) : bool :=
  negb (String.eqb c "") && negb (String.eqb c ".").

Definition is_absolute (p : string) : bool :=
  match p with
  | String c _ => Ascii.eqb c slash
  | EmptyString => false
  end.

Definition parse_path (p : string) : fpath :=
  (is_absolute p, filter (fun c => is_component c = true) (split slash p)).

(** The root and the current directory always exist. *)
Definition is_dir (m : gmap fpath node) (p : fpath) : bool :=
  match p.2 with
  | [] => true
  | _ => match m !! p with Some Dir => true | _ => false end
  end.

(** [os.makedirs(name, exist_ok=True)] on the tree: walk down the
    components, keep the directories that exist, create the missing ones,
    stop with an error at a component that is a regular file.  What was
    created before the error stays. *)
Fixpoint makedirs_from (abs : bool) (above below : list string)
    (m : gmap fpath node) : bool * gmap fpath node :=
  match below with
  | [] => (true, m)
  | c :: cs =>
      let p := (abs, above ++ [c]) in
      match m !! p with
      | Some (File _) => (false, m)
      | Some Dir => makedirs_from abs (above ++ [c]) cs m
      | None => makedirs_from abs (above ++ [c]) cs (<[p := Dir]> m)
      end
  end.

Definition makedirs_nodes (p : fpath) (m : gmap fpath node)
  : bool * gmap fpath node :=
  makedirs_from p.1 [] p.2 m.

(** [os.path.join(a, b)] of [posixpath]. *)
Definition ends_with_slash (s : string) : bool :=
  match last (split slash s) with
  | Some l => String.eqb l "" && negb (String.eqb s "")
  | None => false
  end.

Definition os_path_join (a b : string) : string :=
  if is_absolute b then b
  else if String.eqb a "" || ends_with_slash a then a +:+ b
       else a +:+ "/" +:+ b.

(** ** The world and the environment *)

Record world : Type := {
  w_trace : list event;     (* the calls made so far, oldest first *)
  w_fs : filesystem
}.

(** The environment answers a call from the calls made before it. *)
Record env : Type := {
  (** [requests.get]: [None] when the call raises. *)
  env_net : list event -> string -> bool -> option response;
  (** [gzip.decompress]: [None] when the data is no gzip stream. *)
  env_gunzip : string -> option string;
  (** Whether the disk refuses the filesystem call made last (permission
      denied, disk full, ...). *)
  env_fault : list event -> bool
}.

Inductive outcome (A : Type) : Type :=
  | Return (a : A)
  | Raise (e : exn).
Arguments Return {A} a.
Arguments Raise {A} e.

(** Computations: they read and extend the world and return or raise. *)
Definition M (A : Type) : Type := world -> outcome A * world.

Definition ret {A} (a : A) : M A := fun w => (Return a, w).

Definition raise {A} (e : exn) : M A := fun w => (Raise e, w).

Definition bind {A B} (m : M A) (k : A -> M B) : M B :=
  fun w =>
    match m w with
    | (Return a, w') => k a w'
    | (Raise e, w') => (Raise e, w')
    end.

(** [try: m  except Exception as error: h error] *)
Definition try_except {A} (m : M A) (h : exn -> M A) : M A :=
  fun w =>
    match m w with
    | (Return a, w') => (Return a, w')
    | (Raise e, w') => h e w'
    end.

Declare Scope py_scope.
Delimit Scope py_scope with py.
Notation "'let!' x ':=' m 'in' k" := (bind m (fun x => k))
  (at level 10, x name, m at level 100, k at level 200) : py_scope.
Notation "m ';;' k" := (bind m (fun _ => k))
  (at level 100, k at level 200, right associativity) : py_scope.
Open Scope py_scope.

Definition emit (e : event) : M unit :=
  fun w => (Return tt, {| w_trace := w_trace w ++ [e]; w_fs := w_fs w |}).

Definition log (lvl : level) (msg : message) : M unit := emit (EvLog lvl msg).

(** ** Library calls *)

(** [response.raise_for_status()]: statuses 400 to 599 raise. *)
Definition raise_for_status (r : response) : M unit :=
  if ((400 <=? status_code r) && (status_code r <? 600))%Z
  then raise (HTTPError (status_code r))
  else ret tt.

(** [bytes.decode("ascii")]: a byte above 127 raises. *)
Fixpoint is_ascii (s : string) : bool :=
  match s with
  | EmptyString => true
  | String c s' => (nat_of_ascii c <? 128)%nat && is_ascii s'
  end.

Definition decode_ascii (s : string) : M string :=
  if is_ascii s then ret s else raise UnicodeDecodeError.

(** [response.json()] *)
Definition response_json (r : response) : M jvalue :=
  match json r with
  | Some v => ret v
  | None => raise JSONDecodeError
  end.

(** [v[0]] *)
Definition item0 (v : jvalue) : M jvalue :=
  match v with
  | JArr (x :: _) => ret x
  | JArr [] => raise IndexError
  | JStr s => match s with
              | String c _ => ret (JStr (String c EmptyString))
              | EmptyString => raise IndexError
              end
  | JObj _ => raise (KeyError "0")
  | _ => raise TypeError
  end.

Fixpoint assoc (key : string) (members : list (string * jvalue))
  : option jvalue :=
  match members with
  | [] => None
  | (k, v) :: rest => if String.eqb k key then Some v else assoc key rest
  end.

(** [v[key]] for a text key *)
Definition item (v : jvalue) (key : string) : M jvalue :=
  match v with
  | JObj members =>
      match assoc key members with
      | Some x => ret x
      | None => raise (KeyError key)
      end
  | _ => raise TypeError
  end.

(** [open]'s argument names a directory when it is empty or ends in a
    slash, a dot or two dots. *)
Definition names_directory (path : string) : bool :=
  match last (split slash path) with
  | Some l => String.eqb l "" || String.eqb l "." || String.eqb l ".."
  | None => true
  end.

Section Program.

Variable E : env.

(** [gzip.decompress(data)] *)
Definition gzip_decompress (data : string) : M string :=
  match env_gunzip E data with
  | Some s => ret s
  | None => raise BadGzipFile
  end.

(** [requests.get(url, verify=verify)], called from the branch [host]. *)
Definition requests_get (host url : string) (verify : bool) : M response :=
  fun w =>
    let w' := {| w_trace := w_trace w ++ [EvGet host url verify];
                 w_fs := w_fs w |} in
    match env_net E (w_trace w) url verify with
    | Some r => (Return r, w')
    | None => (Raise RequestException, w')
    end.

(** [requests.get] on a value taken from a JSON document: only text is a
    URL; anything else is refused before a connection is made. *)
Definition requests_get_value (host : string) (url : jvalue) (verify : bool)
  : M response :=
  match url with
  | JStr u => requests_get host u verify
  | _ => raise InvalidURL
  end.

(** A filesystem call: record it, let the disk refuse it, else run it. *)
Definition fs_call {A} (e : event)
    (op : filesystem -> outcome A * filesystem) : M A :=
  fun w =>
    let t := w_trace w ++ [e] in
    if env_fault E t
    then (Raise (OSError "EIO"), {| w_trace := t; w_fs := w_fs w |})
    else let '(r, f) := op (w_fs w) in (r, {| w_trace := t; w_fs := f |}).

(** [os.makedirs(path, exist_ok=True)] *)
Definition os_makedirs (path : string) : M unit :=
  fs_call (EvMakedirs path) (fun f =>
    if String.eqb path "" then (Raise (OSError "ENOENT"), f)
    else
      let '(ok, m) := makedirs_nodes (parse_path path) (fs_nodes f) in
      let f' := {| fs_nodes := m; fs_open := fs_open f |} in
      if ok then (Return tt, f') else (Raise (OSError "ENOTDIR"), f')).

(** [open(path, "w")]: the parent must be a directory and the path must
    not be one; the file is created or emptied and a handle on it opened. *)
Definition open_w (path : string) : M fpath :=
  fs_call (EvOpen path) (fun f =>
    let p := parse_path path in
    if names_directory path then (Raise (OSError "EISDIR"), f)
    else if negb (is_dir (fs_nodes f) (p.1, removelast p.2))
    then (Raise (OSError "ENOENT"), f)
    else match fs_nodes f !! p with
         | Some Dir => (Raise (OSError "EISDIR"), f)
         | _ => (Return p, {| fs_nodes := <[p := File ""]> (fs_nodes f);
                              fs_open := p :: fs_open f |})
         end).

(** [print(line, file=handle)]: the line and a newline go to the end of
    the file. *)
Definition print (line : string) (handle : fpath) : M unit :=
  fs_call (EvPrint handle line) (fun f =>
    match fs_nodes f !! handle with
    | Some (File old) =>
        (Return tt,
         {| fs_nodes := <[handle := File (old +:+ line +:+ String nl "")]> (fs_nodes f);
            fs_open := fs_open f |})
    | _ => (Raise (OSError "EBADF"), f)
    end).

(** [handle.close()]: no call of the program reaches it. *)
Definition close (handle : fpath) (f : filesystem) : filesystem :=
  {| fs_nodes := fs_nodes f;
     fs_open := filter (fun h => h <> handle) (fs_open f) |}.

(** ** The program *)

(** [_getpdb(code, type, host, verify)] *)
Definition _getpdb (code type host : string) (verify : bool)
  : M (list string) :=
  if String.eqb (lower host) "rcsb" then
    let url := "https://files.rcsb.org/download/" +:+ upper code +:+ "."
               +:+ lower type +:+ ".gz" in
    log INFO (MsgFetching (JStr url)) ;;
    let! response := requests_get "rcsb" url verify in
    raise_for_status response ;;
    let! raw := gzip_decompress (content response) in
    let! txt := decode_ascii raw in
    ret (split nl txt)
  else if String.eqb (lower host) "rcsb-ligand" then
    let url :=
      if bool_decide (lower type ∈ ["sdf"; "mol2"])
      then "https://files.rcsb.org/ligands/download/" +:+ upper code
           +:+ "_ideal." +:+ lower type
      else "https://files.rcsb.org/ligands/download/" +:+ upper code
           +:+ "." +:+ lower type in
    log INFO (MsgFetching (JStr url)) ;;
    let! response := requests_get "rcsb-ligand" url verify in
    raise_for_status response ;;
    ret (split nl (text response))
  else if String.eqb (lower host) "pubchem" then
    let url := "https://pubchem.ncbi.nlm.nih.gov/rest/pug/compound/CID/"
               +:+ code +:+ "/record/" +:+ upper type +:+ "?record_type=3d" in
    log INFO (MsgFetching (JStr url)) ;;
    let! response := requests_get "pubchem" url verify in
    raise_for_status response ;;
    ret (split nl (text response))
  else if String.eqb (lower host) "alphafold" then
    let url := "https://alphafold.ebi.ac.uk/api/prediction/" +:+ upper code in
    log INFO (MsgFetching (JStr url)) ;;
    let! response := requests_get "alphafold" url verify in
    raise_for_status response ;;
    let! doc := response_json response in
    let! meta := item0 doc in
    let! url :=
      if String.eqb (lower type) "cif" then item meta "cifUrl"
      else if String.eqb (lower type) "bcif" then item meta "bcifUrl"
      else if String.eqb (lower type) "pdb" then item meta "pdbUrl"
      else raise (InvalidFileType type) in
    log INFO (MsgFetching url) ;;
    let! response := requests_get_value "alphafold" url verify in
    raise_for_status response ;;
    ret (split nl (text response))
  else raise (UnknownHost host).

(** The [for host in DATABASE_HOSTS.keys()] loop of [getpdb], lines
    145-156, over the hosts still to visit; it returns [data]. *)
Fixpoint fetch_loop (code type : string) (verify : bool)
    (hosts : list string) : M (list string) :=
  match hosts with
  | [] => ret []
  | host :: rest =>
      match get DATABASE_HOSTS host with
      | None => raise TypeError
      | Some supported =>
          if negb (bool_decide (lower type ∈ supported)) then
            log WARNING (MsgNoSupport host type) ;;
            fetch_loop code type verify rest
          else
            let! got :=
              try_except
                (let! data := _getpdb code type host verify in
                 ret (Some data))
                (fun error => log WARNING (MsgException error) ;; ret None) in
            match got with
            | Some data => ret data
            | None => fetch_loop code type verify rest
            end
      end
  end.

(** Lines 168-178: the [try] block that writes the file. *)
Fixpoint print_lines (data : list string) (handle : fpath) : M unit :=
  match data with
  | [] => ret tt
  | line :: rest => print line handle ;; print_lines rest handle
  end.

Definition write_output (data : list string) (path : option string)
    (output : string) : M unit :=
  (if truthy path then os_makedirs (the path) else ret tt) ;;
  let! handle := open_w output in
  print_lines data handle.

(** Lines 158-182 of [getpdb]: what is done with [data] after the loop. *)
Definition getpdb_output (code type : string) (path : option string)
    (data : list string) : M unit :=
  match data with
  | [] => log ERROR (MsgCouldNotFetch code type)
  | _ =>
      let output := code +:+ "." +:+ lower type in
      let output :=
        if truthy path then os_path_join (the path) output else output in
      log INFO (MsgWriting output) ;;
      let! written :=
        try_except
          (write_output data path output ;; ret true)
          (fun error => log ERROR (MsgException error) ;; ret false) in
      if written : bool then log INFO MsgFinished else ret tt
  end.

(** [getpdb(code, type, path, verify)] *)
Definition getpdb (code : string) (type path : option string)
    (verify : bool) : M unit :=
  let type := resolve_type code type in
  let! data := fetch_loop code type verify (keys DATABASE_HOSTS) in
  getpdb_output code type path data.

(** ** The command line *)

(** What the user typed: the identifiers and, for each option, its value
    or whether it is there. *)
Record cmdline : Type := {
  cl_code : list string;
  cl_o : option string;
  cl_dir : option string;
  cl_verbose : bool;
  cl_no_ssl_verify : bool
}.

(** The namespace [parser.parse_args()] returns. *)
Record Namespace : Type := {
  args_code : list string;
  args_type : option string;
  args_dir : option string;
  args_verbose : bool;
  args_verify : bool
}.

(** Lines 192-217.  [code] takes one or more values; [--no-ssl-verify] is
    declared with [dest="verify", action='store_true'], which stores
    [True] when the flag is there and [False] when it is not. *)
Definition parse_args (c : cmdline) : option Namespace :=
  match cl_code c with
  | [] => None
  | _ => Some {| args_code := cl_code c;
                 args_type := cl_o c;
                 args_dir := cl_dir c;
                 args_verbose := cl_verbose c;
                 args_verify := cl_no_ssl_verify c |}
  end.

Fixpoint main_loop (args : Namespace) (codes : list string) : M unit :=
  match codes with
  | [] => ret tt
  | code :: rest =>
      getpdb code (args_type args) (args_dir args) (args_verify args) ;;
      main_loop args rest
  end.

(** [main()]; a command line the parser rejects makes no call. *)
Definition main (c : cmdline) : M unit :=
  match parse_args c with
  | Some args => main_loop args (args_code args)
  | None => ret tt
  end.

End Program.

(** ** Reading a trace *)

(** The calls a computation adds to the world it starts in. *)
Definition emitted {A} (m : M A) (w : world) : list event :=
  drop (List.length (w_trace w)) (w_trace (m w).2).

Definition is_get (e : event) : bool :=
  match e with EvGet _ _ _ => true | _ => false end.

(** The hosts contacted, request by request. *)
Definition contacted (t : list event) : list string :=
  omap (fun e => match e with EvGet h _ _ => Some h | _ => None end) t.

(** The position of a host in the registry. *)
Fixpoint index_of (h : string) (l : list string) : nat :=
  match l with
  | [] => 0
  | x :: l' => if String.eqb x h then 0 else S (index_of h l')
  end.

Definition rank (h : string) : nat := index_of h (keys DATABASE_HOSTS).

(** [a] comes no later than [b] in the registry. *)
Definition in_order (a b : string) : Prop := rank a <= rank b.

(** A call that is a log line or a request made for one of [hosts]. *)
Definition request_to (hosts : list string) (e : event) : Prop :=
  match e with
  | EvGet h _ _ => h ∈ lower <$> hosts
  | EvLog _ _ => True
  | _ => False
  end.

Definition lookup_file (w : world) (path : string) : option node :=
  fs_nodes (w_fs w) !! parse_path path.

Definition empty_world : world :=
  {| w_trace := []; w_fs := {| fs_nodes := ∅; fs_open := [] |} |}.

(** The text of a file that holds the given lines. *)
Definition unlines (data : list string) : string :=
  foldr (fun line acc => line +:+ String nl "" +:+ acc) "" data.

Definition is_fs_call (e : event) : bool :=
  match e with
  | EvMakedirs _ | EvOpen _ | EvPrint _ _ => true
  | _ => false
  end.

(** The requests made, as (URL, verify) pairs, and the verify flags. *)
Definition requests (t : list event) : list (string * bool) :=
  omap (fun e => match e with EvGet _ u v => Some (u, v) | _ => None end) t.

Definition verify_flags (t : list event) : list bool := (requests t).*2.

(** A path and all the directories above it are directories of the tree. *)
Fixpoint has_dirs_from (abs : bool) (above below : list string)
    (m : gmap fpath node) : bool :=
  match below with
  | [] => true
  | c :: cs =>
      match m !! (abs, above ++ [c]) with
      | Some Dir => has_dirs_from abs (above ++ [c]) cs m
      | _ => false
      end
  end.

Definition has_dirs (m : gmap fpath node) (p : fpath) : bool :=
  has_dirs_from p.1 [] p.2 m.

(** From [f] to [f'] no handle was closed and no directory removed. *)
Definition fs_grows (f f' : filesystem) : Prop :=
  fs_open f `suffix_of` fs_open f' /\
  forall q, fs_nodes f !! q = Some Dir -> fs_nodes f' !! q = Some Dir.

(** ** Trace invariants *)

(** [w'] continues [w] with calls that all satisfy [P]; the filesystem
    differs only if one of them is a filesystem call, and then it has
    grown. *)
Definition extends_with (P : event -> Prop) (w w' : world) : Prop :=
  exists t, w_trace w' = w_trace w ++ t /\ Forall P t /\
            (forallb (fun e => negb (is_fs_call e)) t = true ->
             w_fs w' = w_fs w) /\
            fs_grows (w_fs w) (w_fs w').

(** Every call [m] makes satisfies [P], whatever world it starts in. *)
Definition adds {A} (P : event -> Prop) (m : M A) : Prop :=
  forall w, extends_with P w (m w).2.

(** Whatever [m] raises satisfies [Q]. *)
Definition may_raise {A} (Q : exn -> Prop) (m : M A) : Prop :=
  forall w, match (m w).1 with Raise e => Q e | Return _ => True end.

(** Whatever [m] returns satisfies [Q]. *)
Definition may_return {A} (Q : A -> Prop) (m : M A) : Prop :=
  forall w, match (m w).1 with Return a => Q a | Raise _ => True end.

Definition is_invalid_file_type (e : exn) : bool :=
  match e with InvalidFileType _ => true | _ => false end.

(** A call that is not the logging of an "Invalid file type" exception. *)
Definition not_invalid_logged (e : event) : Prop :=
  match e with
  | EvLog _ (MsgException error) => is_invalid_file_type error = false
  | _ => True
  end.

(** Every eligible attempt over [hosts] fails: starting in [w], each host
    either lacks the type and is skipped, or is tried and raises; [w'] is
    the world after the last of them. *)
Inductive attempts_fail (E : env) (code type : string) (verify : bool)
  : list string -> world -> world -> Prop :=
  | fail_nil w :
      attempts_fail E code type verify [] w w
  | fail_skip host supported rest w w' :
      get DATABASE_HOSTS host = Some supported ->
      bool_decide (lower type ∈ supported) = false ->
      attempts_fail E code type verify rest
        (log WARNING (MsgNoSupport host type) w).2 w' ->
      attempts_fail E code type verify (host :: rest) w w'
  | fail_raise host supported rest w error w1 w' :
      get DATABASE_HOSTS host = Some supported ->
      bool_decide (lower type ∈ supported) = true ->
      _getpdb E code type host verify w = (Raise error, w1) ->
      attempts_fail E code type verify rest
        (log WARNING (MsgException error) w1).2 w' ->
      attempts_fail E code type verify (host :: rest) w w'.

(** ** Sample environments *)

Definition ok_response (body : string) : response :=
  {| status_code := 200; content := body; text := body; json := None |}.

(** Only the primary archive answers, and only for 1LYZ as mmCIF; the
    gzip decoder is the identity and the disk refuses nothing. *)
Definition env_rcsb : env :=
  {| env_net := fun _ url _ =>
       if String.eqb url "https://files.rcsb.org/download/1LYZ.cif.gz"
       then Some (ok_response ("data_1LYZ" +:+ String nl "" +:+ "#"))
       else None;
     env_gunzip := fun s => Some s;
     env_fault := fun _ => false |}.

(** No host answers. *)
Definition env_down : env :=
  {| env_net := fun _ _ _ => None;
     env_gunzip := fun _ => None;
     env_fault := fun _ => false |}.

(** Every host answers every request with the same two lines. *)
Definition env_up : env :=
  {| env_net := fun _ _ _ => Some (ok_response ("HEADER" +:+ String nl "" +:+ "END"));
     env_gunzip := fun s => Some s;
     env_fault := fun _ => false |}.

(** A world whose current directory already holds a file "1LYZ.cif". *)
Definition world_stale : world :=
  {| w_trace := [];
     w_fs := {| fs_nodes := {[ (false, ["1LYZ.cif"]) := File "stale" ]};
                fs_open := [] |} |}.

Definition cmdline_plain : cmdline :=
  {| cl_code := ["1LYZ"]; cl_o := None; cl_dir := None;
     cl_verbose := false; cl_no_ssl_verify := false |}.

Definition cmdline_no_ssl_verify : cmdline :=
  {| cl_code := ["1LYZ"]; cl_o := None; cl_dir := None;
     cl_verbose := false; cl_no_ssl_verify := true |}.

(** ** The rest of the program: what a run is measured by *)

Definition is_error_log (e : event) : bool :=
  match e with EvLog ERROR _ => true | _ => false end.

Definition is_finished_log (e : event) : bool :=
  match e with EvLog INFO MsgFinished => true | _ => false end.

Definition is_open (e : event) : bool :=
  match e with EvOpen _ => true | _ => false end.

(** Lines 163-166 of [getpdb]: the name of the output file. *)
Definition output_name (code type : string) (path : option string) : string :=
  let output := code +:+ "." +:+ lower type in
  if truthy path then os_path_join (the path) output else output.

(** The requests an attempt at [host] can make: the alphafold branch of
    [_getpdb] calls [requests.get] twice, every other branch once. *)
Definition attempt_cost (host : string) : nat :=
  if String.eqb (lower host) "alphafold" then 2 else 1.

(** The requests the loop can make over [hosts] for a type. *)
Fixpoint request_budget (type : string) (hosts : list string) : nat :=
  match hosts with
  | [] => 0
  | host :: rest =>
      match get DATABASE_HOSTS host with
      | Some supported =>
          if bool_decide (lower type ∈ supported)
          then attempt_cost host + request_budget type rest
          else request_budget type rest
      | None => 0
      end
  end.

(** [m] makes at most [n] requests. *)
Definition makes_requests {A} (n : nat) (m : M A) : Prop :=
  forall w, exists t,
    w_trace (m w).2 = w_trace w ++ t /\ List.length (requests t) <= n.

(** [m] leaves every node of the tree other than [p] as it is. *)
Definition keeps_except {A} (p : fpath) (m : M A) : Prop :=
  forall w q n,
    q <> p ->
    fs_nodes (w_fs w) !! q = Some n ->
    fs_nodes (w_fs (m w).2) !! q = Some n.

(** A call of the loop: no closing line and no filesystem call. *)
Definition loop_call (e : event) : Prop :=
  is_error_log e = false /\ is_finished_log e = false /\ is_fs_call e = false.

(** ** Logging to the console

    Lines 219-226 of [main]: the root logger gets one handler and the
    level ERROR, or INFO with [--verbose]; a logging call reaches the
    console when its level is at least the logger's. *)
Definition levelno_of (l : level) : Z :=
  match l with
  | INFO => 20
  | WARNING => 30
  | ERROR => 40
  end.

Definition logger_level (verbose : bool) : Z :=
  if verbose then levelno_of INFO else levelno_of ERROR.

Definition shown (verbose : bool) (e : event) : bool :=
  match e with
  | EvLog lvl _ => (logger_level verbose <=? levelno_of lvl)%Z
  | _ => false
  end.

Definition console (verbose : bool) (t : list event) : list event :=
  filter (fun e => shown verbose e = true) t.

(** ** The formatter of the console lines *)

(** The attributes of a [logging.LogRecord] that the formats of the
    program read. [asctime] is the time as the formatter renders it. *)
Record LogRecord : Type := {
  rec_asctime : string;
  rec_filename : string;
  rec_lineno : Z;
  rec_levelno : Z;
  rec_levelname : string;
  rec_message : string
}.

Inductive pyval : Type :=
  | VStr (s : string)
  | VInt (n : Z).

(** [str(v)] *)
Definition py_str (v : pyval) : string :=
  match v with
  | VStr s => s
  | VInt n => pretty n
  end.

(** [record.__dict__[key]] for the attributes above. *)
Definition record_attr (record : LogRecord) (key : string) : option pyval :=
  if String.eqb key "asctime" then Some (VStr (rec_asctime record))
  else if String.eqb key "filename" then Some (VStr (rec_filename record))
  else if String.eqb key "lineno" then Some (VInt (rec_lineno record))
  else if String.eqb key "levelno" then Some (VInt (rec_levelno record))
  else if String.eqb key "levelname" then Some (VStr (rec_levelname record))
  else if String.eqb key "message" then Some (VStr (rec_message record))
  else None.

(** Where the scan of a %-format stands. *)
Inductive fmt_state : Type :=
  | InText
  | AfterPercent
  | InKey (key : string)
  | AfterKey (key : string).

(** [fmt % mapping] for the directives [%(key)s], [%(key)d] and [%%];
    [None] when Python raises (unknown key, [%d] of text, a format that
    ends inside a directive) and for directives outside this fragment. *)
Fixpoint percent_format_from (st : fmt_state) (fmt : string)
    (attr : string -> option pyval) : option string :=
  match fmt with
  | EmptyString =>
      match st with
      | InText => Some EmptyString
      | _ => None
      end
  | String c rest =>
      match st with
      | InText =>
          if Ascii.eqb c "%" then percent_format_from AfterPercent rest attr
          else String c <$> percent_format_from InText rest attr
      | AfterPercent =>
          if Ascii.eqb c "(" then percent_format_from (InKey "") rest attr
          else if Ascii.eqb c "%"
               then String c <$> percent_format_from InText rest attr
               else None
      | InKey key =>
          if Ascii.eqb c ")" then percent_format_from (AfterKey key) rest attr
          else percent_format_from (InKey (key +:+ String c "")) rest attr
      | AfterKey key =>
          match attr key with
          | None => None
          | Some v =>
              if Ascii.eqb c "s"
              then String.append (py_str v)
                     <$> percent_format_from InText rest attr
              else if Ascii.eqb c "d"
                   then match v with
                        | VInt n => String.append (pretty n)
                                      <$> percent_format_from InText rest attr
                        | VStr _ => None
                        end
                   else None
          end
      end
  end.

Definition percent_format (fmt : string) (attr : string -> option pyval)
  : option string :=
  percent_format_from InText fmt attr.

(** [logging.Formatter(fmt).format(record)] for a record without
    exception information; [Formatter(None)] uses ["%(message)s"]. *)
Definition Formatter_format (fmt : option string) (record : LogRecord)
  : option string :=
  percent_format (default "%(message)s" fmt) (record_attr record).

Definition ESC : string := String (ascii_of_nat 27) "".

Module CustomFormatter.

(** The class attribute [format], as it is when [FORMATS] is built; the
    method of the same name replaces it afterwards. *)
Definition format_attribute : string :=
  "[%(asctime)s] %(filename)s:%(lineno)d:%(levelname)s: %(message)s".

(** Keyed by [logging.DEBUG], [INFO], [WARNING], [ERROR], [CRITICAL]. *)
Definition FORMATS : list (Z * string) :=
  [ (10%Z, format_attribute);
    (20%Z, format_attribute);
    (30%Z, ESC +:+ "[33;20m" +:+ format_attribute +:+ ESC +:+ "[0m");
    (40%Z, ESC +:+ "[31;20m" +:+ format_attribute +:+ ESC +:+ "[0m");
    (50%Z, ESC +:+ "[31;1m" +:+ format_attribute +:+ ESC +:+ "[0m") ].

(** [self.FORMATS.get(levelno)] *)
Fixpoint FORMATS_get (d : list (Z * string)) (key : Z) : option string :=
  match d with
  | [] => None
  | (k, v) :: d' => if (k =? key)%Z then Some v else FORMATS_get d' key
  end.

(** [CustomFormatter.format(self, record)] *)
Definition format (record : LogRecord) : option string :=
  let log_fmt := FORMATS_get FORMATS (rec_levelno record) in
  Formatter_format log_fmt record.

End CustomFormatter.

(** The line a record gives in the layout of the program, uncoloured. *)
Definition plain_line (record : LogRecord) : string :=
  "[" +:+ rec_asctime record +:+ "] " +:+ rec_filename record +:+ ":"
  +:+ pretty (rec_lineno record) +:+ ":" +:+ rec_levelname record +:+ ": "
  +:+ rec_message record.

Definition sample_record (lvl : Z) : LogRecord :=
  {| rec_asctime := "2024-03-20 10:00:00,000"; rec_filename := "getpdb.py";
     rec_lineno := 160; rec_levelno := lvl; rec_levelname := "ERROR";
     rec_message := "Could not fetch '1LYZ.cif'" |}.

(** An answer of the prediction service that points at a model file. *)
Definition alphafold_response : response :=
  {| status_code := 200; content := ""; text := "";
     json := Some (JArr [JObj [("entryId", JStr "AF-P00698-F1");
                               ("cifUrl", JStr "https://alphafold.ebi.ac.uk/files/AF-P00698-F1-model_v4.cif")]]) |}.

(** The prediction service answers its API with [alphafold_response] and
    every other URL with two lines; no other host answers. *)
Definition env_alphafold : env :=
  {| env_net := fun _ url _ =>
       if String.eqb url "https://alphafold.ebi.ac.uk/api/prediction/P00698"
       then Some alphafold_response
       else if String.eqb url "https://alphafold.ebi.ac.uk/files/AF-P00698-F1-model_v4.cif"
            then Some (ok_response ("HEADER" +:+ String nl "" +:+ "END"))
            else None;
     env_gunzip := fun _ => None;
     env_fault := fun _ => false |}.

(** * Properties *)

(** ** Text *)

Lemma split_not_nil sep s : split sep s <> [].
Proof.
  destruct s as [|c s]; simpl; [done|].
  destruct (Ascii.eqb c sep); [done|].
  by destruct (split sep s).
Qed.

Lemma truthy_the o : truthy o = true -> o = Some (the o) /\ the o <> "".
Proof.
  destruct o as [s|]; simpl; [|done].
  intros H. split; [done|]. intros ->. done.
Qed.

(** ** The trace logic *)

Lemma fs_grows_refl f : fs_grows f f.
Proof. by split. Qed.

Lemma fs_grows_trans f1 f2 f3 :
  fs_grows f1 f2 -> fs_grows f2 f3 -> fs_grows f1 f3.
Proof. intros [O1 D1] [O2 D2]. split; [by etrans|]. intros q Hq. auto. Qed.

Lemma extends_refl P w : extends_with P w w.
Proof.
  exists []. rewrite app_nil_r. repeat split; [constructor|done|done].
Qed.

Lemma extends_one P e w w' :
  P e -> w_trace w' = w_trace w ++ [e] ->
  (is_fs_call e = false -> w_fs w' = w_fs w) ->
  fs_grows (w_fs w) (w_fs w') ->
  extends_with P w w'.
Proof.
  intros HP Ht Hfs Hopen. exists [e].
  split; [done|]. split; [by constructor|]. split; [|done].
  simpl. rewrite andb_true_r. intros H. apply Hfs. by destruct (is_fs_call e).
Qed.

Lemma extends_trans P w1 w2 w3 :
  extends_with P w1 w2 -> extends_with P w2 w3 -> extends_with P w1 w3.
Proof.
  intros (t1 & H1 & F1 & K1 & O1) (t2 & H2 & F2 & K2 & O2).
  exists (t1 ++ t2).
  split; [by rewrite H2, H1, app_assoc|].
  split; [by apply Forall_app|].
  split; [|by eapply fs_grows_trans].
  rewrite forallb_app. intros [G1 G2]%andb_true_iff.
  by rewrite K2, K1.
Qed.

Lemma extends_weaken (P Q : event -> Prop) w w' :
  (forall e, P e -> Q e) -> extends_with P w w' -> extends_with Q w w'.
Proof.
  intros HPQ (t & H & F & K). exists t. split; [done|].
  split; [|done]. eapply Forall_impl; eauto.
Qed.

Lemma extends_emitted {A} P (m : M A) w :
  extends_with P w (m w).2 -> Forall P (emitted m w).
Proof.
  intros (t & H & F & _). unfold emitted. by rewrite H, drop_app_length.
Qed.

Lemma emitted_eq {A} (m : M A) w t :
  w_trace (m w).2 = w_trace w ++ t -> emitted m w = t.
Proof. intros H. unfold emitted. by rewrite H, drop_app_length. Qed.

Lemma adds_ret {A} P (a : A) : adds P (ret a).
Proof. intros w. apply extends_refl. Qed.

Lemma adds_raise {A} P e : adds P (@raise A e).
Proof. intros w. apply extends_refl. Qed.

Lemma adds_bind {A B} P (m : M A) (k : A -> M B) :
  adds P m -> (forall a, adds P (k a)) -> adds P (bind m k).
Proof.
  intros Hm Hk w. unfold bind. specialize (Hm w).
  destruct (m w) as [[a|e] w1]; simpl in *; [|done].
  eapply extends_trans; [exact Hm|apply Hk].
Qed.

Lemma adds_try_except {A} P (m : M A) (h : exn -> M A) :
  adds P m -> (forall e, adds P (h e)) -> adds P (try_except m h).
Proof.
  intros Hm Hh w. unfold try_except. specialize (Hm w).
  destruct (m w) as [[a|e] w1]; simpl in *; [done|].
  eapply extends_trans; [exact Hm|apply Hh].
Qed.

Lemma adds_emit P e : P e -> adds P (emit e).
Proof.
  intros H w. apply (extends_one P e); [done|done|done|apply fs_grows_refl].
Qed.

Lemma adds_log P lvl msg : P (EvLog lvl msg) -> adds P (log lvl msg).
Proof. apply adds_emit. Qed.

Lemma adds_requests_get E P host url verify :
  P (EvGet host url verify) -> adds P (requests_get E host url verify).
Proof.
  intros H w. apply (extends_one P (EvGet host url verify)); [done|..];
    unfold requests_get; destruct (env_net E (w_trace w) url verify);
    first [done|apply fs_grows_refl].
Qed.

Lemma adds_fs_call {A} E P e (op : filesystem -> outcome A * filesystem) :
  is_fs_call e = true -> P e ->
  (forall f, fs_grows f (op f).2) ->
  adds P (fs_call E e op).
Proof.
  intros Hfs H Hop w. apply (extends_one P e); [done| |congruence|].
  - unfold fs_call. destruct (env_fault E (w_trace w ++ [e])); [done|].
    by destruct (op (w_fs w)).
  - unfold fs_call.
    destruct (env_fault E (w_trace w ++ [e])); [apply fs_grows_refl|].
    specialize (Hop (w_fs w)). by destruct (op (w_fs w)).
Qed.

(** Calls that stay inside the interpreter add nothing. *)
Lemma adds_raise_for_status P r : adds P (raise_for_status r).
Proof.
  unfold raise_for_status. case_match; [apply adds_raise|apply adds_ret].
Qed.

Lemma adds_decode_ascii P s : adds P (decode_ascii s).
Proof. unfold decode_ascii. case_match; [apply adds_ret|apply adds_raise]. Qed.

Lemma adds_response_json P r : adds P (response_json r).
Proof. unfold response_json. case_match; [apply adds_ret|apply adds_raise]. Qed.

Lemma adds_item0 P v : adds P (item0 v).
Proof.
  unfold item0. repeat case_match; first [apply adds_ret|apply adds_raise].
Qed.

Lemma adds_item P v key : adds P (item v key).
Proof.
  unfold item. repeat case_match; first [apply adds_ret|apply adds_raise].
Qed.

Lemma adds_gzip_decompress E P data : adds P (gzip_decompress E data).
Proof.
  unfold gzip_decompress. case_match; [apply adds_ret|apply adds_raise].
Qed.

Lemma adds_requests_get_value E P host url verify :
  (forall u, P (EvGet host u verify)) ->
  adds P (requests_get_value E host url verify).
Proof.
  intros H. unfold requests_get_value.
  destruct url; first [apply adds_raise|by apply adds_requests_get].
Qed.

Create HintDb adds discriminated.
#[export] Hint Resolve adds_ret adds_raise adds_log adds_raise_for_status
  adds_decode_ascii adds_response_json adds_item0 adds_item
  adds_gzip_decompress adds_requests_get adds_requests_get_value : adds.

(** Break a computation into its calls and settle each with the hints. *)
Ltac adds_step :=
  first
    [ apply adds_bind; [|intros ?]
    | apply adds_try_except; [|intros ?]
    | progress eauto with adds ].

Ltac adds_auto := repeat adds_step.

(** What [_getpdb] adds: INFO lines and requests that carry its own host
    name and the [verify] it was given. *)
Lemma adds__getpdb E P code type host verify :
  (forall url, P (EvLog INFO (MsgFetching url))) ->
  (forall url, P (EvGet (lower host) url verify)) ->
  adds P (_getpdb E code type host verify).
Proof.
  intros Hlog Hget. unfold _getpdb.
  repeat (case_match; [match goal with
    | H : String.eqb _ _ = true |- _ =>
        apply String.eqb_eq in H; rewrite <- H
    end; adds_auto; repeat case_match; adds_auto |]).
  adds_auto.
Qed.

(** [makedirs] changes no node that is there. *)
Lemma makedirs_from_keeps abs above below m q n :
  m !! q = Some n -> (makedirs_from abs above below m).2 !! q = Some n.
Proof.
  revert above m. induction below as [|c cs IH]; intros above m Hq; [done|].
  cbn [makedirs_from]. cbv zeta.
  destruct (m !! (abs, above ++ [c])) as [[|old]|] eqn:Hp.
  - by apply IH.
  - done.
  - apply IH. rewrite lookup_insert_ne; [done|]. intros <-. congruence.
Qed.

Lemma adds_os_makedirs E P path :
  P (EvMakedirs path) -> adds P (os_makedirs E path).
Proof.
  intros. apply adds_fs_call; [done|done|]. intros f.
  cbv beta. destruct (String.eqb path ""); [apply fs_grows_refl|].
  pose proof (makedirs_from_keeps (parse_path path).1 [] (parse_path path).2
                (fs_nodes f)) as Hkeep.
  unfold makedirs_nodes.
  destruct (makedirs_from _ _ _ _) as [[|] m]; split; simpl; auto.
Qed.

(** [open] adds a handle, closes none and replaces no directory. *)
Lemma adds_open_w E P path : P (EvOpen path) -> adds P (open_w E path).
Proof.
  intros. apply adds_fs_call; [done|done|]. intros f.
  cbv beta zeta. destruct (names_directory path); [apply fs_grows_refl|].
  destruct (is_dir (fs_nodes f) _); [|apply fs_grows_refl]. cbn [negb].
  destruct (fs_nodes f !! parse_path path) as [[|old]|] eqn:Hp;
    first [apply fs_grows_refl|split; simpl].
  - by apply suffix_cons_r.
  - intros q Hq. rewrite lookup_insert_ne; [done|]. intros <-. congruence.
  - by apply suffix_cons_r.
  - intros q Hq. rewrite lookup_insert_ne; [done|]. intros <-. congruence.
Qed.

Lemma adds_print E P line handle :
  P (EvPrint handle line) -> adds P (print E line handle).
Proof.
  intros. apply adds_fs_call; [done|done|]. intros f.
  cbv beta. destruct (fs_nodes f !! handle) as [[|old]|] eqn:Hp;
    first [apply fs_grows_refl|split; simpl; [done|]].
  intros q Hq. rewrite lookup_insert_ne; [done|]. intros <-. congruence.
Qed.

Lemma adds_print_lines E P data handle :
  (forall line, P (EvPrint handle line)) -> adds P (print_lines E data handle).
Proof.
  intros H. induction data as [|line rest IH]; simpl.
  - apply adds_ret.
  - apply adds_bind; [by apply adds_print|done].
Qed.

Lemma adds_write_output E P data path output :
  (forall e, is_fs_call e = true -> P e) ->
  adds P (write_output E data path output).
Proof.
  intros H. unfold write_output.
  apply adds_bind; [|intros _; apply adds_bind; [|intros handle]].
  - case_match; [by apply adds_os_makedirs, H|apply adds_ret].
  - by apply adds_open_w, H.
  - apply adds_print_lines. intros line. by apply H.
Qed.

(** The loop adds log lines and requests of those of its hosts that
    support the type. *)
Lemma adds_fetch_loop E P code type verify hosts :
  (forall lvl msg, P (EvLog lvl msg)) ->
  (forall host supported url,
     host ∈ hosts -> get DATABASE_HOSTS host = Some supported ->
     lower type ∈ supported -> P (EvGet (lower host) url verify)) ->
  adds P (fetch_loop E code type verify hosts).
Proof.
  intros Hlog. induction hosts as [|host rest IH]; intros Hget;
    cbn [fetch_loop].
  - apply adds_ret.
  - assert (adds P (fetch_loop E code type verify rest)) as Hrest.
    { apply IH. intros h sup u Hh. apply Hget. by right. }
    destruct (get DATABASE_HOSTS host) as [sup|] eqn:Hsup; [|apply adds_raise].
    destruct (bool_decide (lower type ∈ sup)) eqn:Hin; simpl.
    + apply bool_decide_eq_true in Hin.
      apply adds_bind; [|intros [data|]; [apply adds_ret|done]].
      apply adds_try_except.
      * apply adds_bind; [|intros; apply adds_ret].
        apply adds__getpdb; [done|]. intros u.
        apply (Hget host sup); [by left|done|done].
      * intros e. apply adds_bind; [by apply adds_log|intros; apply adds_ret].
    + apply adds_bind; [by apply adds_log|done].
Qed.

Lemma lower_registry host :
  host ∈ keys DATABASE_HOSTS -> lower host = host.
Proof.
  intros H. repeat (apply elem_of_cons in H as [->|H]; [reflexivity|]).
  by apply elem_of_nil in H.
Qed.

Lemma adds_getpdb_output E P code type path data :
  (forall lvl msg, P (EvLog lvl msg)) ->
  (forall e, is_fs_call e = true -> P e) ->
  adds P (getpdb_output E code type path data).
Proof.
  intros Hlog Hfs. unfold getpdb_output.
  destruct data as [|line data]; [by apply adds_log|].
  apply adds_bind; [by apply adds_log|intros _].
  apply adds_bind.
  - apply adds_try_except.
    + apply adds_bind; [by apply adds_write_output|intros; apply adds_ret].
    + intros e. apply adds_bind; [by apply adds_log|intros; apply adds_ret].
  - intros [|]; [by apply adds_log|apply adds_ret].
Qed.

(** What [getpdb] adds: log lines, filesystem calls, and requests, with
    the [verify] it was given, of registry hosts that support the type. *)
Lemma adds_getpdb E P code type path verify :
  (forall lvl msg, P (EvLog lvl msg)) ->
  (forall host supported url,
     get DATABASE_HOSTS host = Some supported ->
     lower (resolve_type code type) ∈ supported ->
     P (EvGet host url verify)) ->
  (forall e, is_fs_call e = true -> P e) ->
  adds P (getpdb E code type path verify).
Proof.
  intros Hlog Hget Hfs. unfold getpdb.
  apply adds_bind; [|intros data; by apply adds_getpdb_output].
  apply adds_fetch_loop; [done|]. intros h sup u Hh Hsup Hin.
  rewrite (lower_registry h Hh). by apply (Hget h sup).
Qed.

Lemma adds_main_loop E P args codes :
  (forall lvl msg, P (EvLog lvl msg)) ->
  (forall host url, P (EvGet host url (args_verify args))) ->
  (forall e, is_fs_call e = true -> P e) ->
  adds P (main_loop E args codes).
Proof.
  intros Hlog Hget Hfs.
  induction codes as [|code rest IH]; simpl; [apply adds_ret|].
  apply adds_bind; [|done]. apply adds_getpdb; [done| |done].
  intros host sup url _ _. apply Hget.
Qed.

Lemma adds_main E P c :
  (forall lvl msg, P (EvLog lvl msg)) ->
  (forall host url, P (EvGet host url (cl_no_ssl_verify c))) ->
  (forall e, is_fs_call e = true -> P e) ->
  adds P (main E c).
Proof.
  intros Hlog Hget Hfs. unfold main.
  destruct (parse_args c) as [args|] eqn:Hargs; [|apply adds_ret].
  apply adds_main_loop; [done| |done].
  unfold parse_args in Hargs.
  destruct (cl_code c); [done|]. by inversion Hargs.
Qed.

(** ** The command line and TLS verification *)

Lemma verify_flags_Forall (flag : bool) t :
  Forall (fun e => match e with EvGet _ _ v => v = flag | _ => True end) t ->
  Forall (eq flag) (verify_flags t).
Proof.
  unfold verify_flags, requests.
  induction 1 as [|e t He _ IH]; simpl; [constructor|].
  destruct e; simpl; try done. constructor; [done|exact IH].
Qed.

(** Every request of a run carries, as its [verify] argument, whether
    [--no-ssl-verify] was on the command line. *)
Lemma main_verify_flags E c w :
  Forall (eq (cl_no_ssl_verify c)) (verify_flags (emitted (main E c) w)).
Proof.
  apply verify_flags_Forall, extends_emitted, adds_main.
  - done.
  - done.
  - by intros [].
Qed.

(** C1 (fails on the code): the claim wants requests verified unless
    [--no-ssl-verify] is given.  The option is declared with
    [dest="verify", action='store_true'], so the run passes
    [verify=False] to every request when the flag is absent and
    [verify=True] when it is present: for every environment and command
    line the [verify] of each request equals the presence of the flag, and
    fetching 1LYZ without the flag issues its one request unverified, with
    the flag verified. *)
Theorem C1_no_ssl_verify_is_inverted :
  (forall E c w,
     Forall (eq (cl_no_ssl_verify c)) (verify_flags (emitted (main E c) w)))
  /\ requests (emitted (main env_rcsb cmdline_plain) empty_world)
     = [("https://files.rcsb.org/download/1LYZ.cif.gz", false)]
  /\ requests (emitted (main env_rcsb cmdline_no_ssl_verify) empty_world)
     = [("https://files.rcsb.org/download/1LYZ.cif.gz", true)].
Proof.
  split; [exact main_verify_flags|].
  split; vm_compute; reflexivity.
Qed.

(** ** The default file type *)

Lemma resolve_type_truthy code type :
  truthy (Some (resolve_type code type)) = true ->
  resolve_type code (Some (resolve_type code type)) = resolve_type code type.
Proof. intros H. unfold resolve_type at 1. by rewrite H. Qed.

(** C2: with no file type given, an identifier shorter than 4 characters
    gets the short-form default "sdf" and one of 4 characters or more the
    large-form default "cif"; this is the type [getpdb] goes on with. *)
Theorem C2_default_type_by_length (code : string) :
  (String.length code < 4 ->
     resolve_type code None = FILE_DEFAULT_SMALL /\ FILE_DEFAULT_SMALL = "sdf")
  /\ (4 <= String.length code ->
     resolve_type code None = FILE_DEFAULT_LARGE /\ FILE_DEFAULT_LARGE = "cif")
  /\ (forall E path verify,
     getpdb E code None path verify
     = getpdb E code (Some (resolve_type code None)) path verify).
Proof.
  unfold resolve_type at 1 2. simpl truthy. cbv iota.
  split; [|split].
  - intros H. apply Nat.ltb_lt in H. by rewrite H.
  - intros H. apply Nat.ltb_ge in H. by rewrite H.
  - intros E path verify. unfold getpdb.
    rewrite resolve_type_truthy; [done|].
    unfold resolve_type. simpl truthy. cbv iota. by case_match.
Qed.

Lemma C2_default_type_by_length_witness :
  resolve_type "ATP" None = "sdf" /\ resolve_type "1LYZ" None = "cif".
Proof.
  split.
  - apply (proj1 (C2_default_type_by_length "ATP")). simpl. lia.
  - apply (proj1 (proj2 (C2_default_type_by_length "1LYZ"))). simpl. lia.
Defined.

(** ** The host loop *)

Lemma fetch_loop_cons E code type verify host rest :
  fetch_loop E code type verify (host :: rest) =
  match get DATABASE_HOSTS host with
  | None => raise TypeError
  | Some supported =>
      if negb (bool_decide (lower type ∈ supported)) then
        log WARNING (MsgNoSupport host type) ;;
        fetch_loop E code type verify rest
      else
        let! got :=
          try_except
            (let! data := _getpdb E code type host verify in ret (Some data))
            (fun error => log WARNING (MsgException error) ;; ret None) in
        match got with
        | Some data => ret data
        | None => fetch_loop E code type verify rest
        end
  end.
Proof. reflexivity. Qed.

(** Over registry hosts the loop always returns: whatever an attempt
    raises is caught. *)
Lemma fetch_loop_returns E code type verify hosts w :
  Forall (fun h => is_Some (get DATABASE_HOSTS h)) hosts ->
  exists data w', fetch_loop E code type verify hosts w = (Return data, w').
Proof.
  intros H. revert w. induction H as [|host rest [sup Hsup] _ IH]; intros w.
  - by eexists _, _.
  - rewrite fetch_loop_cons, Hsup.
    destruct (bool_decide (lower type ∈ sup)); simpl.
    + unfold bind at 1, try_except, bind at 1.
      destruct (_getpdb E code type host verify w) as [[data|e] w1]; simpl.
      * by eexists _, _.
      * apply IH.
    + unfold bind at 1. simpl. apply IH.
Qed.

(** Hosts whose attempts all fail leave the loop where it would be
    without them. *)
Lemma fetch_loop_attempts_fail E code type verify hosts rest w w1 :
  attempts_fail E code type verify hosts w w1 ->
  fetch_loop E code type verify (hosts ++ rest) w
  = fetch_loop E code type verify rest w1.
Proof.
  induction 1 as [w|host sup hosts w w' Hsup Hno _ IH
                  |host sup hosts w e w1 w' Hsup Hyes Hraise _ IH].
  - done.
  - rewrite <- app_comm_cons, fetch_loop_cons, Hsup, Hno. simpl.
    unfold bind at 1. simpl. exact IH.
  - rewrite <- app_comm_cons, fetch_loop_cons, Hsup, Hyes. simpl.
    unfold bind at 1, try_except, bind at 1. rewrite Hraise. simpl.
    exact IH.
Qed.

Lemma extends_keeps_fs P w w' :
  (forall e, P e -> is_fs_call e = false) ->
  extends_with P w w' -> w_fs w' = w_fs w.
Proof.
  intros HP (t & _ & F & K & _). apply K.
  apply forallb_forall. intros e He. apply negb_true_iff, HP.
  rewrite Forall_forall in F. by apply F, list_elem_of_In.
Qed.

Lemma extends_no_fs_call P w w' :
  (forall e, P e -> is_fs_call e = false) ->
  extends_with P w w' ->
  forallb (fun e => negb (is_fs_call e))
          (drop (List.length (w_trace w)) (w_trace w')) = true.
Proof.
  intros HP (t & Ht & F & _). rewrite Ht, drop_app_length.
  apply forallb_forall. intros e He. apply negb_true_iff, HP.
  rewrite Forall_forall in F. by apply F, list_elem_of_In.
Qed.

Lemma request_to_not_fs hosts e : request_to hosts e -> is_fs_call e = false.
Proof. by destruct e. Qed.

Lemma request_to_mono hosts hosts' e :
  hosts ⊆ hosts' -> request_to hosts e -> request_to hosts' e.
Proof.
  intros Hsub. destruct e; simpl; try done.
  intros (h & -> & Hh)%list_elem_of_fmap.
  apply list_elem_of_fmap. exists h. split; [done|]. by apply Hsub.
Qed.

(** An attempt only logs and sends requests for its own host. *)
Lemma _getpdb_request_to E code type host verify :
  adds (request_to [host]) (_getpdb E code type host verify).
Proof.
  apply adds__getpdb; [done|]. intros url. simpl.
  by apply list_elem_of_singleton.
Qed.

(** Failed attempts only log and send requests for their hosts. *)
Lemma attempts_fail_extends E code type verify hosts w w1 :
  attempts_fail E code type verify hosts w w1 ->
  extends_with (request_to hosts) w w1.
Proof.
  induction 1 as [w|host sup hosts w w' Hsup Hno _ IH
                  |host sup hosts w e w1 w' Hsup Hyes Hraise _ IH].
  - apply extends_refl.
  - eapply extends_trans; [by apply adds_log|].
    eapply extends_weaken; [|exact IH].
    intros e. apply request_to_mono. intros x Hx. by right.
  - eapply extends_trans; [|eapply extends_trans; [by apply adds_log|]].
    + pose proof (_getpdb_request_to E code type host verify w) as Hone.
      rewrite Hraise in Hone.
      eapply extends_weaken; [|exact Hone].
      intros e'. apply request_to_mono.
      intros x ->%list_elem_of_singleton. by left.
    + eapply extends_weaken; [|exact IH].
      intros e'. apply request_to_mono. intros x Hx. by right.
Qed.

(** ** [getpdb] as a whole *)

(** [getpdb] returns normally on every input and in every environment. *)
Lemma getpdb_returns E code type path verify w :
  (getpdb E code type path verify w).1 = Return tt.
Proof.
  unfold getpdb, bind at 1.
  destruct (fetch_loop_returns E code (resolve_type code type) verify
              (keys DATABASE_HOSTS) w) as (data & w1 & ->).
  { repeat constructor; by eexists. }
  unfold getpdb_output.
  destruct data as [|line data]; [done|].
  unfold bind at 1. simpl. unfold bind at 1, try_except, bind at 1.
  match goal with |- context [write_output ?a ?b ?c ?d ?e] =>
    destruct (write_output a b c d e) as [[[]|err] w2] end; reflexivity.
Qed.

(** When every attempt fails, [getpdb] logs the error and stops. *)
Lemma getpdb_attempts_fail E code type path verify w w1 :
  attempts_fail E code (resolve_type code type) verify
    (keys DATABASE_HOSTS) w w1 ->
  getpdb E code type path verify w
  = log ERROR (MsgCouldNotFetch code (resolve_type code type)) w1.
Proof.
  intros H. unfold getpdb, bind at 1.
  rewrite <- (app_nil_r (keys DATABASE_HOSTS)).
  by rewrite (fetch_loop_attempts_fail _ _ _ _ _ [] _ _ H).
Qed.

(** An attempt that returns, returns at least one line. *)
Lemma may_return_bind {A B} (Q : B -> Prop) (m : M A) (k : A -> M B) :
  (forall a, may_return Q (k a)) -> may_return Q (bind m k).
Proof.
  intros Hk w. unfold bind.
  destruct (m w) as [[a|e] w1]; [apply Hk|done].
Qed.

Lemma _getpdb_returns_lines E code type host verify :
  may_return (fun data => data <> []) (_getpdb E code type host verify).
Proof.
  unfold _getpdb.
  repeat case_match;
    repeat (apply may_return_bind; intros ?);
    intros w; first [apply split_not_nil|done].
Qed.

(** The loop ends without data exactly when every eligible attempt
    failed. *)
Lemma fetch_loop_no_data E code type verify hosts w w1 :
  fetch_loop E code type verify hosts w = (Return [], w1) ->
  attempts_fail E code type verify hosts w w1.
Proof.
  revert w. induction hosts as [|host rest IH]; intros w Hloop.
  { inversion Hloop; subst. apply fail_nil. }
  rewrite fetch_loop_cons in Hloop.
  destruct (get DATABASE_HOSTS host) as [sup|] eqn:Hsup; [|done].
  destruct (bool_decide (lower type ∈ sup)) eqn:Hin; simpl in Hloop.
  - unfold bind at 1, try_except, bind at 1 in Hloop.
    pose proof (_getpdb_returns_lines E code type host verify w) as Hlines.
    destruct (_getpdb E code type host verify w) as [[data|e] w2] eqn:Hget;
      simpl in *.
    + inversion Hloop; subst. done.
    + eapply fail_raise; eauto.
  - eapply fail_skip; eauto.
Qed.

Lemma attempts_fail_no_data E code type verify hosts w w1 :
  attempts_fail E code type verify hosts w w1 ->
  fetch_loop E code type verify hosts w = (Return [], w1).
Proof.
  intros H. rewrite <- (app_nil_r hosts).
  by rewrite (fetch_loop_attempts_fail _ _ _ _ _ [] _ _ H).
Qed.

(** C3: when every eligible host attempt fails, [getpdb] leaves the
    filesystem as it was, makes no filesystem call at all, ends by logging
    the error "Could not fetch", and returns normally; and on every input,
    in every environment, [getpdb] returns normally: nothing a host attempt
    or the file write raises leaves it. *)
Theorem C3_all_hosts_fail_no_file_no_raise
    E code type path verify w :
  (getpdb E code type path verify w).1 = Return tt
  /\ forall w1,
       attempts_fail E code (resolve_type code type) verify
         (keys DATABASE_HOSTS) w w1 ->
       w_fs (getpdb E code type path verify w).2 = w_fs w
       /\ forallb (fun e => negb (is_fs_call e))
            (emitted (getpdb E code type path verify) w) = true
       /\ last (emitted (getpdb E code type path verify) w)
          = Some (EvLog ERROR
                    (MsgCouldNotFetch code (resolve_type code type))).
Proof.
  split; [apply getpdb_returns|]. intros w1 H.
  pose proof (attempts_fail_extends _ _ _ _ _ _ _ H) as Hext.
  assert (extends_with (request_to (keys DATABASE_HOSTS)) w
            (getpdb E code type path verify w).2) as Hall.
  { rewrite (getpdb_attempts_fail _ _ _ _ _ _ _ H).
    eapply extends_trans; [exact Hext|]. by apply adds_log. }
  split; [by apply (extends_keeps_fs _ _ _ (request_to_not_fs _) Hall)|].
  split; [by apply (extends_no_fs_call _ _ _ (request_to_not_fs _) Hall)|].
  unfold emitted. rewrite (getpdb_attempts_fail _ _ _ _ _ _ _ H).
  destruct Hext as (t & Ht & _). simpl.
  rewrite Ht, <- app_assoc, drop_app_length. apply last_snoc.
Qed.

Lemma C3_all_hosts_fail_no_file_no_raise_witness :
  (getpdb env_down "1LYZ" None (Some "out") true empty_world).1 = Return tt
  /\ w_fs (getpdb env_down "1LYZ" None (Some "out") true empty_world).2
     = w_fs empty_world.
Proof.
  pose proof (C3_all_hosts_fail_no_file_no_raise
                env_down "1LYZ" None (Some "out") true empty_world)
    as [Hret Hfail].
  split; [exact Hret|].
  eapply Hfail.
  eapply fail_raise; [reflexivity|reflexivity|vm_compute; reflexivity|].
  eapply fail_raise; [reflexivity|reflexivity|vm_compute; reflexivity|].
  eapply fail_skip; [reflexivity|reflexivity|].
  eapply fail_raise; [reflexivity|reflexivity|vm_compute; reflexivity|].
  apply fail_nil.
Defined.

(** ** Hosts that lack the type *)

Lemma contacted_elem_of host t :
  host ∈ contacted t -> exists url verify, EvGet host url verify ∈ t.
Proof.
  unfold contacted. intros (e & He & Heq)%list_elem_of_omap.
  destruct e; try done. inversion Heq; subst. eauto.
Qed.

(** A call made after a stretch of the run, and followed by the rest of
    it, is among the calls of the run. *)
Lemma emitted_elem_of {A} P Q (m : M A) w w1 e :
  extends_with P w w1 ->
  extends_with Q (emit e w1).2 (m w).2 ->
  e ∈ emitted m w.
Proof.
  intros (t1 & H1 & _) (t2 & H2 & _). simpl in H2.
  unfold emitted. rewrite H2, H1, <- !app_assoc, drop_app_length.
  apply elem_of_app. right. apply elem_of_app. left. by apply list_elem_of_singleton.
Qed.

(** No request ever goes to a host that lacks the type. *)
Lemma getpdb_never_contacts_unsupported
    E code type path verify w host supported :
  get DATABASE_HOSTS host = Some supported ->
  lower (resolve_type code type) ∉ supported ->
  host ∉ contacted (emitted (getpdb E code type path verify) w).
Proof.
  intros Hsup Hno Hin.
  apply contacted_elem_of in Hin as (url & v & Hin).
  pose proof (adds_getpdb E
    (fun e => match e with
              | EvGet h _ _ =>
                  exists sup, get DATABASE_HOSTS h = Some sup /\
                              lower (resolve_type code type) ∈ sup
              | _ => True
              end) code type path verify) as H.
  assert (Forall (fun e => match e with
              | EvGet h _ _ =>
                  exists sup, get DATABASE_HOSTS h = Some sup /\
                              lower (resolve_type code type) ∈ sup
              | _ => True
              end) (emitted (getpdb E code type path verify) w)) as HF.
  { apply extends_emitted, H.
    - done.
    - intros h sup u ? ?. by exists sup.
    - by intros []. }
  rewrite Forall_forall in HF.
  apply HF in Hin as (sup & Hsup' & Hyes). congruence.
Qed.

(** When the hosts before it all failed, the loop reaches a host that
    lacks the type and logs the warning for it. *)
Lemma getpdb_warns_unsupported
    E code type path verify w host supported pre post w1 :
  get DATABASE_HOSTS host = Some supported ->
  lower (resolve_type code type) ∉ supported ->
  keys DATABASE_HOSTS = pre ++ host :: post ->
  attempts_fail E code (resolve_type code type) verify pre w w1 ->
  EvLog WARNING (MsgNoSupport host (resolve_type code type))
    ∈ emitted (getpdb E code type path verify) w.
Proof.
  intros Hsup Hno Hkeys Hfail.
  eapply (emitted_elem_of _ (fun _ => True));
    [exact (attempts_fail_extends _ _ _ _ _ _ _ Hfail)|].
  unfold getpdb. rewrite Hkeys. unfold bind at 1.
  rewrite (fetch_loop_attempts_fail _ _ _ _ _ _ _ _ Hfail).
  rewrite fetch_loop_cons, Hsup.
  rewrite (bool_decide_eq_false_2 _ Hno). simpl negb. cbv iota.
  unfold bind at 1. cbn [log emit].
  pose proof (adds_bind (fun _ => True)
    (fetch_loop E code (resolve_type code type) verify post)
    (getpdb_output E code (resolve_type code type) path)) as H.
  apply H.
  - apply adds_fetch_loop; done.
  - intros data. apply adds_getpdb_output; done.
Qed.

(** C4 as stated fails: fetching 1LYZ as mmCIF succeeds at the first
    host, so pubchem, which lacks "cif", is never reached and no warning
    is logged for it. *)
Lemma C4_warning_not_logged_after_success :
  ~ (forall E code type path verify w host supported,
       get DATABASE_HOSTS host = Some supported ->
       lower (resolve_type code type) ∉ supported ->
       (host ∉ contacted (emitted (getpdb E code type path verify) w))
       /\ (EvLog WARNING (MsgNoSupport host (resolve_type code type))
            ∈ emitted (getpdb E code type path verify) w)).
Proof.
  intros H.
  destruct (H env_rcsb "1LYZ" None None true empty_world "pubchem"
              ["sdf"; "json"; "xml"; "asnt"] eq_refl) as [_ Hin].
  - apply (bool_decide_eq_false_1 _). vm_compute. reflexivity.
  - apply list_elem_of_In in Hin. vm_compute in Hin.
    repeat destruct Hin as [Hin|Hin]; discriminate || contradiction.
Qed.

(** C4 (amended): a host whose capability list lacks the lower-cased
    requested type is never sent a request; and when every eligible host
    before it has failed, so that the loop reaches it, the warning that it
    does not support the type is logged. *)
Theorem C4_unsupported_host_never_contacted
    E code type path verify w host supported :
  get DATABASE_HOSTS host = Some supported ->
  lower (resolve_type code type) ∉ supported ->
  (host ∉ contacted (emitted (getpdb E code type path verify) w))
  /\ forall pre post w1,
       keys DATABASE_HOSTS = pre ++ host :: post ->
       attempts_fail E code (resolve_type code type) verify pre w w1 ->
       EvLog WARNING (MsgNoSupport host (resolve_type code type))
         ∈ emitted (getpdb E code type path verify) w.
Proof.
  intros Hsup Hno. split.
  - by eapply getpdb_never_contacts_unsupported.
  - intros pre post w1. by eapply getpdb_warns_unsupported.
Qed.

Lemma C4_unsupported_host_never_contacted_witness :
  ("rcsb" ∉ contacted (emitted (getpdb env_up "ATP" None None true) empty_world))
  /\ (EvLog WARNING (MsgNoSupport "rcsb" "sdf")
       ∈ emitted (getpdb env_up "ATP" None None true) empty_world).
Proof.
  destruct (C4_unsupported_host_never_contacted
              env_up "ATP" None None true empty_world "rcsb"
              ["pdb"; "cif"; "bcif"; "xml"] eq_refl) as [Hno Hwarn].
  - apply (bool_decide_eq_false_1 _). vm_compute. reflexivity.
  - split; [exact Hno|].
    apply (Hwarn [] ["rcsb-ligand"; "pubchem"; "alphafold"] empty_world).
    + reflexivity.
    + apply fail_nil.
Defined.

(** ** The order of the hosts *)

Lemma contacted_Forall (Q : string -> Prop) t :
  Forall (fun e => match e with EvGet h _ _ => Q h | _ => True end) t ->
  Forall Q (contacted t).
Proof.
  unfold contacted. induction 1 as [|e t He _ IH]; simpl; [constructor|].
  destruct e; simpl; try done. by constructor.
Qed.

Lemma contacted_request_to hosts t :
  Forall (request_to hosts) t ->
  Forall (fun h => h ∈ lower <$> hosts) (contacted t).
Proof.
  intros H. apply contacted_Forall. eapply Forall_impl; [exact H|].
  by intros [].
Qed.

Lemma contacted_app t1 t2 : contacted (t1 ++ t2) = contacted t1 ++ contacted t2.
Proof. apply omap_app. Qed.

Lemma in_order_refl h : in_order h h.
Proof. unfold in_order. lia. Qed.

Lemma StronglySorted_same (h : string) l :
  Forall (eq h) l -> StronglySorted in_order l.
Proof.
  induction 1 as [|x l <- Hl IH]; constructor; [done|].
  eapply Forall_impl; [exact Hl|]. intros ? <-. apply in_order_refl.
Qed.

Lemma fmap_lower_registry hosts :
  hosts ⊆ keys DATABASE_HOSTS -> lower <$> hosts = hosts.
Proof.
  induction hosts as [|h hosts IH]; intros Hsub; [done|].
  rewrite fmap_cons, IH, lower_registry; [done| |].
  - apply Hsub. by left.
  - intros x Hx. apply Hsub. by right.
Qed.

(** The requests of the loop go to its hosts, in the order of the list. *)
Lemma fetch_loop_in_order E code type verify hosts :
  StronglySorted in_order hosts ->
  hosts ⊆ keys DATABASE_HOSTS ->
  forall w, exists t,
    w_trace (fetch_loop E code type verify hosts w).2 = w_trace w ++ t
    /\ Forall (fun h => h ∈ hosts) (contacted t)
    /\ StronglySorted in_order (contacted t).
Proof.
  induction hosts as [|h rest IH]; intros Hs Hsub w.
  { exists []. simpl. rewrite app_nil_r. repeat split; constructor. }
  apply StronglySorted_cons in Hs as [Hh Hs].
  assert (rest ⊆ keys DATABASE_HOSTS) as Hrest.
  { intros x Hx. apply Hsub. by right. }
  assert (lower h = h) as Hlow.
  { apply lower_registry, Hsub. by left. }
  specialize (IH Hs Hrest).
  assert (forall w1 e, w_trace w1 = w_trace w ++ [e] -> is_get e = false ->
    exists t, w_trace (fetch_loop E code type verify rest w1).2 = w_trace w ++ t
      /\ Forall (fun x => x ∈ h :: rest) (contacted t)
      /\ StronglySorted in_order (contacted t)) as Hlog.
  { intros w1 e Hw1 He. destruct (IH w1) as (t2 & Ht2 & F2 & S2).
    exists ([e] ++ t2). rewrite Ht2, Hw1, <- app_assoc.
    split; [done|]. rewrite contacted_app.
    replace (contacted [e]) with (@nil string) by (by destruct e).
    split; [|done]. eapply Forall_impl; [exact F2|]. intros x Hx. by right. }
  rewrite fetch_loop_cons.
  destruct (get DATABASE_HOSTS h) as [sup|].
  2:{ exists []. simpl. rewrite app_nil_r. repeat split; constructor. }
  destruct (bool_decide (lower type ∈ sup)); simpl.
  2:{ unfold bind at 1. simpl. by eapply Hlog. }
  unfold bind at 1, try_except, bind at 1.
  destruct (adds__getpdb E
              (fun e => match e with EvGet h' _ _ => h = h' | _ => True end)
              code type h verify (fun _ => I)
              (fun _ => eq_sym Hlow) w) as (t1 & Ht1 & F1 & _).
  apply contacted_Forall in F1.
  destruct (_getpdb E code type h verify w) as [[data|e] w1]; simpl in *.
  - exists t1. split; [done|]. split; [|by eapply StronglySorted_same].
    eapply Forall_impl; [exact F1|]. intros x <-. by left.
  - destruct (IH {| w_trace := w_trace w1 ++ [EvLog WARNING (MsgException e)];
                    w_fs := w_fs w1 |}) as (t2 & Ht2 & F2 & S2).
    exists (t1 ++ [EvLog WARNING (MsgException e)] ++ t2).
    split; [simpl in Ht2; by rewrite Ht2, Ht1, <- !app_assoc|].
    rewrite !contacted_app. simpl.
    split.
    + apply Forall_app. split.
      * eapply Forall_impl; [exact F1|]. intros x <-. by left.
      * eapply Forall_impl; [exact F2|]. intros x Hx. by right.
    + apply StronglySorted_app_2; [|by eapply StronglySorted_same|done].
      intros x1 x2 Hx1 Hx2.
      rewrite Forall_forall in F1. rewrite <- (F1 _ Hx1).
      rewrite Forall_forall in Hh. apply Hh.
      rewrite Forall_forall in F2. by apply F2.
Qed.

Lemma keys_in_order : StronglySorted in_order (keys DATABASE_HOSTS).
Proof.
  repeat (constructor; [|repeat constructor; unfold in_order;
                          vm_compute; lia]).
  constructor.
Qed.

Lemma contacted_no_get t :
  Forall (fun e => is_get e = false) t -> contacted t = [].
Proof.
  unfold contacted. induction 1 as [|e t He _ IH]; simpl; [done|].
  by destruct e.
Qed.

(** After the loop no request is made. *)
Lemma getpdb_output_no_get E code type path data w :
  exists t, w_trace (getpdb_output E code type path data w).2 = w_trace w ++ t
            /\ contacted t = [].
Proof.
  destruct (adds_getpdb_output E (fun e => is_get e = false)
              code type path data) with (w := w) as (t & Ht & F & _).
  - done.
  - by intros [].
  - exists t. split; [done|]. by apply contacted_no_get.
Qed.

(** The requests of [getpdb] are those of its loop. *)
Lemma getpdb_contacted E code type path verify w :
  contacted (emitted (getpdb E code type path verify) w)
  = contacted (emitted (fetch_loop E code (resolve_type code type) verify
                          (keys DATABASE_HOSTS)) w).
Proof.
  destruct (fetch_loop_in_order E code (resolve_type code type) verify
              (keys DATABASE_HOSTS) keys_in_order (fun _ H => H) w)
    as (t1 & Ht1 & _).
  rewrite (emitted_eq _ _ _ Ht1).
  unfold emitted, getpdb, bind.
  destruct (fetch_loop E code (resolve_type code type) verify
              (keys DATABASE_HOSTS) w) as [[data|e] w1]; simpl in *.
  - destruct (getpdb_output_no_get E code (resolve_type code type) path
                data w1) as (t2 & Ht2 & Hno).
    rewrite Ht2, Ht1, <- app_assoc, drop_app_length, contacted_app, Hno.
    by rewrite app_nil_r.
  - by rewrite Ht1, drop_app_length.
Qed.

(** The first host whose attempt succeeds ends the loop. *)
Lemma fetch_loop_first_success
    E code type verify pre host supported post w w1 data w2 :
  attempts_fail E code type verify pre w w1 ->
  get DATABASE_HOSTS host = Some supported ->
  lower type ∈ supported ->
  _getpdb E code type host verify w1 = (Return data, w2) ->
  fetch_loop E code type verify (pre ++ host :: post) w = (Return data, w2).
Proof.
  intros Hfail Hsup Hin Hget.
  rewrite (fetch_loop_attempts_fail _ _ _ _ _ _ _ _ Hfail).
  rewrite fetch_loop_cons, Hsup, (bool_decide_eq_true_2 _ Hin). simpl.
  unfold bind at 1, try_except, bind at 1. by rewrite Hget.
Qed.

(** C5: the registry lists rcsb, rcsb-ligand, pubchem, alphafold; the
    requests of every run go to hosts in that order; and when the hosts
    before some host have all failed and the attempt at that host
    succeeds, the loop ends there in the world that attempt left, with
    that attempt's payload as its data, [getpdb] goes on with that payload,
    and no request of the run goes to a later host. *)
Theorem C5_fixed_order_first_success_wins
    E code type path verify w :
  keys DATABASE_HOSTS = ["rcsb"; "rcsb-ligand"; "pubchem"; "alphafold"]
  /\ StronglySorted in_order
       (contacted (emitted (getpdb E code type path verify) w))
  /\ forall pre host supported post w1 data w2,
       keys DATABASE_HOSTS = pre ++ host :: post ->
       attempts_fail E code (resolve_type code type) verify pre w w1 ->
       get DATABASE_HOSTS host = Some supported ->
       lower (resolve_type code type) ∈ supported ->
       _getpdb E code (resolve_type code type) host verify w1
         = (Return data, w2) ->
       fetch_loop E code (resolve_type code type) verify
         (keys DATABASE_HOSTS) w = (Return data, w2)
       /\ getpdb E code type path verify w
          = getpdb_output E code (resolve_type code type) path data w2
       /\ Forall (fun h => h ∈ pre ++ [host] /\ h ∉ post)
            (contacted (emitted (getpdb E code type path verify) w)).
Proof.
  split; [reflexivity|]. split.
  { rewrite getpdb_contacted.
    destruct (fetch_loop_in_order E code (resolve_type code type) verify
                (keys DATABASE_HOSTS) keys_in_order (fun _ H => H) w)
      as (t & Ht & _ & Hs).
    by rewrite (emitted_eq _ _ _ Ht). }
  intros pre host sup post w1 data w2 Hkeys Hfail Hsup Hin Hget.
  assert (fetch_loop E code (resolve_type code type) verify
            (keys DATABASE_HOSTS) w = (Return data, w2)) as Hloop.
  { rewrite Hkeys. by eapply fetch_loop_first_success. }
  split; [exact Hloop|]. split.
  { unfold getpdb, bind. by rewrite Hloop. }
  rewrite getpdb_contacted. unfold emitted. rewrite Hloop. simpl.
  assert (pre ++ [host] ⊆ keys DATABASE_HOSTS) as Hsub.
  { rewrite Hkeys. intros x [Hx|Hx%list_elem_of_singleton]%elem_of_app;
      apply elem_of_app; [by left|right; subst; by left]. }
  assert (forall h, h ∈ pre ++ [host] -> h ∉ post) as Hlater.
  { assert (NoDup ((pre ++ [host]) ++ post)) as Hnodup.
    { rewrite <- app_assoc. cbn [app]. rewrite <- Hkeys.
      apply (bool_decide_unpack _). vm_compute. reflexivity. }
    apply NoDup_app in Hnodup as (_ & Hdisj & _). exact Hdisj. }
  destruct (attempts_fail_extends _ _ _ _ _ _ _ Hfail) as (t1 & Ht1 & F1 & _).
  destruct (_getpdb_request_to E code (resolve_type code type) host verify w1)
    as (t2 & Ht2 & F2 & _).
  rewrite Hget in Ht2. simpl in Ht2.
  rewrite Ht2, Ht1, <- app_assoc, drop_app_length, contacted_app.
  eapply Forall_impl; [|intros h Hh; split; [exact Hh|by apply Hlater]].
  rewrite <- (fmap_lower_registry _ Hsub).
  apply Forall_app. split.
  - apply contacted_request_to. eapply Forall_impl; [exact F1|].
    intros e. apply request_to_mono. intros x Hx. apply elem_of_app. by left.
  - apply contacted_request_to. eapply Forall_impl; [exact F2|].
    intros e. apply request_to_mono. intros x Hx. apply elem_of_app. by right.
Qed.

Lemma C5_fixed_order_first_success_wins_witness :
  (fetch_loop env_up "ATP" "sdf" true (keys DATABASE_HOSTS) empty_world).1
  = Return ["HEADER"; "END"]
  /\ contacted (emitted (getpdb env_up "ATP" None None true) empty_world)
     = ["rcsb-ligand"].
Proof.
  destruct (C5_fixed_order_first_success_wins
              env_up "ATP" None None true empty_world) as (_ & _ & H).
  destruct (H ["rcsb"] "rcsb-ligand" ["cif"; "sdf"; "mol2"]
              ["pubchem"; "alphafold"]
              (log WARNING (MsgNoSupport "rcsb" "sdf") empty_world).2
              ["HEADER"; "END"]
              (_getpdb env_up "ATP" "sdf" "rcsb-ligand" true
                 (log WARNING (MsgNoSupport "rcsb" "sdf") empty_world).2).2)
    as (Hloop & _ & _).
  - reflexivity.
  - eapply fail_skip; [reflexivity|reflexivity|apply fail_nil].
  - reflexivity.
  - apply (bool_decide_eq_true_1 _). vm_compute. reflexivity.
  - vm_compute. reflexivity.
  - split; [|vm_compute; reflexivity].
    change (resolve_type "ATP" None) with "sdf" in Hloop. by rewrite Hloop.
Defined.

(** ** Writing the file *)

Lemma append_cons c s t : String c s +:+ t = String c (s +:+ t).
Proof. reflexivity. Qed.

Lemma append_nil_r s : s +:+ "" = s.
Proof.
  induction s as [|c s IH]; [done|]. by rewrite append_cons, IH.
Qed.

Lemma append_assoc s1 s2 s3 : (s1 +:+ s2) +:+ s3 = s1 +:+ s2 +:+ s3.
Proof.
  induction s1 as [|c s1 IH]; [done|]. by rewrite !append_cons, IH.
Qed.

Lemma world_eta w : {| w_trace := w_trace w; w_fs := w_fs w |} = w.
Proof. by destruct w. Qed.

Lemma filesystem_eta f : {| fs_nodes := fs_nodes f; fs_open := fs_open f |} = f.
Proof. by destruct f. Qed.

(** On a disk that refuses nothing, printing to a handle on a regular
    file appends every line with its newline, in order. *)
Lemma print_lines_ok E data handle old w :
  (forall t, env_fault E t = false) ->
  fs_nodes (w_fs w) !! handle = Some (File old) ->
  print_lines E data handle w
  = (Return tt,
     {| w_trace := w_trace w ++ (EvPrint handle <$> data);
        w_fs := {| fs_nodes := <[handle := File (old +:+ unlines data)]>
                                 (fs_nodes (w_fs w));
                   fs_open := fs_open (w_fs w) |} |}).
Proof.
  intros Hdisk. revert old w.
  induction data as [|line data IH]; intros old w Hold.
  - simpl. unfold ret. rewrite app_nil_r, append_nil_r, insert_id by done.
    by rewrite filesystem_eta, world_eta.
  - cbn [print_lines]. unfold bind, print, fs_call.
    rewrite Hdisk, Hold. cbn [fst snd].
    rewrite (IH (old +:+ line +:+ String nl "")); simpl.
    + rewrite insert_insert_eq, <- app_assoc, !append_assoc. done.
    + by rewrite lookup_insert_eq.
Qed.

(** Opening a path that is not a directory, in a directory that exists,
    creates or empties the file and leaves a handle open. *)
Lemma open_w_ok E path w :
  (forall t, env_fault E t = false) ->
  names_directory path = false ->
  is_dir (fs_nodes (w_fs w)) ((parse_path path).1, removelast (parse_path path).2)
    = true ->
  fs_nodes (w_fs w) !! parse_path path <> Some Dir ->
  open_w E path w
  = (Return (parse_path path),
     {| w_trace := w_trace w ++ [EvOpen path];
        w_fs := {| fs_nodes := <[parse_path path := File ""]> (fs_nodes (w_fs w));
                   fs_open := parse_path path :: fs_open (w_fs w) |} |}).
Proof.
  intros Hdisk Hname Hparent Hnode. unfold open_w, fs_call.
  rewrite Hdisk, Hname, Hparent. simpl.
  destruct (fs_nodes (w_fs w) !! parse_path path) as [[|old]|]; done.
Qed.

(** The attempt at the primary archive, when the archive answers with a
    gzip stream of ASCII text. *)
Lemma _getpdb_rcsb_ok E code type verify w r body :
  let url := "https://files.rcsb.org/download/" +:+ upper code +:+ "."
             +:+ lower type +:+ ".gz" in
  env_net E (w_trace w ++ [EvLog INFO (MsgFetching (JStr url))]) url verify
    = Some r ->
  (status_code r < 400 \/ 600 <= status_code r)%Z ->
  env_gunzip E (content r) = Some body ->
  is_ascii body = true ->
  _getpdb E code type "rcsb" verify w
  = (Return (split nl body),
     {| w_trace := w_trace w ++ [EvLog INFO (MsgFetching (JStr url));
                                 EvGet "rcsb" url verify];
        w_fs := w_fs w |}).
Proof.
  intros url Hnet Hstatus Hzip Hascii.
  unfold _getpdb. change (String.eqb (lower "rcsb") "rcsb") with true.
  cbv iota. fold url.
  unfold bind at 1. cbn [log emit fst snd].
  unfold bind at 1, requests_get. cbn [w_trace w_fs]. rewrite Hnet.
  unfold bind at 1, raise_for_status.
  replace ((400 <=? status_code r)%Z && (status_code r <? 600)%Z) with false
    by (symmetry; apply andb_false_iff; lia).
  unfold ret at 1. unfold bind at 1, gzip_decompress. rewrite Hzip.
  unfold ret at 1. unfold bind at 1, decode_ascii. rewrite Hascii.
  unfold ret. by rewrite <- app_assoc.
Qed.

(** With no output directory, on a disk that refuses nothing and where
    the output path can be opened, [getpdb] writes the data and ends with
    "Finished", the handle still open. *)
Lemma getpdb_output_ok E code type data w :
  let output := code +:+ "." +:+ lower type in
  data <> [] ->
  (forall t, env_fault E t = false) ->
  names_directory output = false ->
  is_dir (fs_nodes (w_fs w))
    ((parse_path output).1, removelast (parse_path output).2) = true ->
  fs_nodes (w_fs w) !! parse_path output <> Some Dir ->
  getpdb_output E code type None data w
  = (Return tt,
     {| w_trace := w_trace w
          ++ [EvLog INFO (MsgWriting output); EvOpen output]
          ++ (EvPrint (parse_path output) <$> data)
          ++ [EvLog INFO MsgFinished];
        w_fs := {| fs_nodes := <[parse_path output := File (unlines data)]>
                                 (fs_nodes (w_fs w));
                   fs_open := parse_path output :: fs_open (w_fs w) |} |}).
Proof.
  intros output Hdata Hdisk Hname Hparent Hnode.
  unfold getpdb_output. destruct data as [|line rest] eqn:Hd; [done|].
  rewrite <- Hd. clear Hd Hdata. cbn [truthy]. cbv iota. fold output.
  unfold bind at 1. cbn [log emit fst snd].
  unfold bind at 1, try_except, bind at 1, write_output. cbn [truthy].
  cbv iota. unfold bind at 1, ret at 1. unfold bind at 1.
  rewrite open_w_ok by done.
  rewrite (print_lines_ok E data (parse_path output) "") by
    (done || (cbn [w_fs fs_nodes]; by rewrite lookup_insert_eq)).
  cbn [w_trace w_fs fs_nodes fs_open log emit ret fst snd].
  rewrite insert_insert_eq. unfold ret, log, emit. cbn [w_trace w_fs].
  by rewrite <- !app_assoc.
Qed.

(** C6 as stated fails: with the archive answering and the disk
    refusing nothing, fetching "1LYZ" leaves no file "1lyz.cif"; the file
    written is "1LYZ.cif". *)
Lemma C6_file_keeps_identifier_case :
  ~ (forall E w r body,
       let url := "https://files.rcsb.org/download/1LYZ.cif.gz" in
       env_net E (w_trace w ++ [EvLog INFO (MsgFetching (JStr url))]) url true
         = Some r ->
       (status_code r < 400 \/ 600 <= status_code r)%Z ->
       env_gunzip E (content r) = Some body ->
       is_ascii body = true ->
       (forall t, env_fault E t = false) ->
       lookup_file w "1lyz.cif" <> Some Dir ->
       lookup_file w "1LYZ.cif" <> Some Dir ->
       resolve_type "1LYZ" None = "cif"
       /\ lookup_file (getpdb E "1LYZ" None None true w).2 "1lyz.cif"
          = Some (File (unlines (split nl body)))).
Proof.
  intros H.
  destruct (H env_rcsb empty_world
              (ok_response ("data_1LYZ" +:+ String nl "" +:+ "#"))
              ("data_1LYZ" +:+ String nl "" +:+ "#")) as [_ Hfile];
    try reflexivity.
  - left. simpl. lia.
  - vm_compute. discriminate.
  - vm_compute. discriminate.
  - vm_compute in Hfile. discriminate.
Qed.

(** C6 (amended): for the identifier "1LYZ" with no type override the
    type is the large-form default "cif"; when the primary archive answers
    the request for 1LYZ.cif.gz with a gzip stream of ASCII text, and the
    disk lets the file be written, the run is that one request followed by
    the writing of the file "1LYZ.cif" -- the identifier as given, with the
    lower-cased type as extension -- which then holds the decompressed
    payload, line by line. *)
Theorem C6_1LYZ_written_as_1LYZ_cif E w r body :
  let url := "https://files.rcsb.org/download/1LYZ.cif.gz" in
  env_net E (w_trace w ++ [EvLog INFO (MsgFetching (JStr url))]) url true
    = Some r ->
  (status_code r < 400 \/ 600 <= status_code r)%Z ->
  env_gunzip E (content r) = Some body ->
  is_ascii body = true ->
  (forall t, env_fault E t = false) ->
  lookup_file w "1LYZ.cif" <> Some Dir ->
  (resolve_type "1LYZ" None = FILE_DEFAULT_LARGE /\ FILE_DEFAULT_LARGE = "cif")
  /\ emitted (getpdb E "1LYZ" None None true) w
     = [EvLog INFO (MsgFetching (JStr url)); EvGet "rcsb" url true;
        EvLog INFO (MsgWriting "1LYZ.cif"); EvOpen "1LYZ.cif"]
       ++ (EvPrint (false, ["1LYZ.cif"]) <$> split nl body)
       ++ [EvLog INFO MsgFinished]
  /\ lookup_file (getpdb E "1LYZ" None None true w).2 "1LYZ.cif"
     = Some (File (unlines (split nl body))).
Proof.
  intros url Hnet Hstatus Hzip Hascii Hdisk Hnode.
  split; [done|]. unfold emitted, lookup_file.
  assert (getpdb E "1LYZ" None None true w
          = getpdb_output E "1LYZ" "cif" None (split nl body)
              {| w_trace := w_trace w
                   ++ [EvLog INFO (MsgFetching (JStr url));
                       EvGet "rcsb" url true];
                 w_fs := w_fs w |}) as ->.
  { unfold getpdb, bind.
    change (resolve_type "1LYZ" None) with "cif".
    change (keys DATABASE_HOSTS)
      with ([] ++ "rcsb" :: ["rcsb-ligand"; "pubchem"; "alphafold"]).
    erewrite fetch_loop_first_success; [done|apply fail_nil|reflexivity| |].
    - apply (bool_decide_eq_true_1 _). vm_compute. reflexivity.
    - by apply (_getpdb_rcsb_ok E "1LYZ" "cif" true w r body). }
  rewrite getpdb_output_ok; try done.
  - change ("1LYZ" +:+ "." +:+ lower "cif") with "1LYZ.cif".
    change (parse_path "1LYZ.cif") with (false, ["1LYZ.cif"]).
    cbn [snd w_trace w_fs fs_nodes].
    split; [|by rewrite lookup_insert_eq].
    by rewrite <- (app_assoc (w_trace w)), drop_app_length.
  - apply split_not_nil.
Qed.

Lemma C6_1LYZ_written_as_1LYZ_cif_witness :
  lookup_file (getpdb env_rcsb "1LYZ" None None true empty_world).2 "1LYZ.cif"
  = Some (File (unlines ["data_1LYZ"; "#"])).
Proof.
  apply (C6_1LYZ_written_as_1LYZ_cif env_rcsb empty_world
           (ok_response ("data_1LYZ" +:+ String nl "" +:+ "#"))
           ("data_1LYZ" +:+ String nl "" +:+ "#")).
  - reflexivity.
  - left. simpl. lia.
  - reflexivity.
  - reflexivity.
  - reflexivity.
  - vm_compute. discriminate.
Defined.

(** No call of [getpdb] closes a handle. *)
Lemma getpdb_keeps_handles E code type path verify w :
  fs_open (w_fs w) `suffix_of`
    fs_open (w_fs (getpdb E code type path verify w).2).
Proof.
  destruct (adds_getpdb E (fun _ => True) code type path verify)
    with (w := w) as (t & _ & _ & _ & H & _); done.
Qed.

(** Closing is what takes a handle away. *)
Lemma close_closes handle f : handle ∉ fs_open (close handle f).
Proof.
  unfold close. cbn [fs_open]. intros [H _]%list_elem_of_filter. done.
Qed.

(** C7 (fails on the code): the file is opened with truncation and each
    line is written with one newline after it, but the handle is never
    closed: [getpdb] has no [handle.close()] and no [with] block.  No run
    of [getpdb] closes a handle; fetching 1LYZ over a stale "1LYZ.cif"
    makes exactly the calls open, print, print, leaves the file holding
    the two lines each followed by a newline, and returns with the handle
    on it still open. *)
Theorem C7_output_handle_left_open :
  (forall E code type path verify w,
     fs_open (w_fs w) `suffix_of`
       fs_open (w_fs (getpdb E code type path verify w).2))
  /\ filter (fun e => is_fs_call e = true)
       (emitted (getpdb env_rcsb "1LYZ" None None true) world_stale)
     = [EvOpen "1LYZ.cif";
        EvPrint (false, ["1LYZ.cif"]) "data_1LYZ";
        EvPrint (false, ["1LYZ.cif"]) "#"]
  /\ lookup_file (getpdb env_rcsb "1LYZ" None None true world_stale).2
       "1LYZ.cif"
     = Some (File ("data_1LYZ" +:+ String nl "" +:+ "#" +:+ String nl ""))
  /\ fs_open (w_fs (getpdb env_rcsb "1LYZ" None None true world_stale).2)
     = [(false, ["1LYZ.cif"])].
Proof.
  split; [exact getpdb_keeps_handles|].
  repeat split; vm_compute; reflexivity.
Qed.

(** ** The output directory *)

Lemma has_dirs_from_keeps abs above below m m' :
  (forall q, m !! q = Some Dir -> m' !! q = Some Dir) ->
  has_dirs_from abs above below m = true ->
  has_dirs_from abs above below m' = true.
Proof.
  intros Hkeep. revert above.
  induction below as [|c cs IH]; intros above; [done|].
  cbn [has_dirs_from].
  destruct (m !! (abs, above ++ [c])) as [[|old]|] eqn:Hp; try done.
  rewrite (Hkeep _ Hp). apply IH.
Qed.

(** A successful [makedirs] leaves the directory and all above it. *)
Lemma makedirs_from_ok abs above below m :
  (makedirs_from abs above below m).1 = true ->
  has_dirs_from abs above below (makedirs_from abs above below m).2 = true.
Proof.
  revert above m. induction below as [|c cs IH]; intros above m Hok; [done|].
  cbn [makedirs_from has_dirs_from] in *. cbv zeta in *.
  destruct (m !! (abs, above ++ [c])) as [[|old]|] eqn:Hp.
  - rewrite (makedirs_from_keeps _ _ _ _ _ _ Hp). by apply IH.
  - done.
  - rewrite (makedirs_from_keeps abs (above ++ [c]) cs
               (<[(abs, above ++ [c]) := Dir]> m) (abs, above ++ [c]) Dir)
      by apply lookup_insert_eq.
    by apply IH.
Qed.

(** Where the directory and all above it exist, [makedirs] succeeds and
    changes nothing. *)
Lemma makedirs_from_exists abs above below m :
  has_dirs_from abs above below m = true ->
  makedirs_from abs above below m = (true, m).
Proof.
  revert above. induction below as [|c cs IH]; intros above Hdirs; [done|].
  cbn [makedirs_from has_dirs_from] in *. cbv zeta.
  destruct (m !! (abs, above ++ [c])) as [[|old]|]; try done.
  by apply IH.
Qed.

Lemma has_dirs_from_is_dir abs above below m :
  has_dirs_from abs above below m = true ->
  is_dir m (abs, above) = true ->
  is_dir m (abs, above ++ below) = true.
Proof.
  revert above. induction below as [|c cs IH]; intros above Hdirs Habove.
  - by rewrite app_nil_r.
  - cbn [has_dirs_from] in Hdirs.
    destruct (m !! (abs, above ++ [c])) as [[|old]|] eqn:Hp; try done.
    replace (above ++ c :: cs) with ((above ++ [c]) ++ cs)
      by (by rewrite <- app_assoc).
    apply IH; [done|].
    unfold is_dir. cbn [snd]. rewrite Hp. by destruct (above ++ [c]).
Qed.

Lemma has_dirs_is_dir m p : has_dirs m p = true -> is_dir m p = true.
Proof.
  destruct p as [abs comps]. intros H.
  by apply (has_dirs_from_is_dir abs [] comps m).
Qed.

Lemma extends_has_dirs P w w' p :
  extends_with P w w' ->
  has_dirs (fs_nodes (w_fs w)) p = true ->
  has_dirs (fs_nodes (w_fs w')) p = true.
Proof.
  intros (t & _ & _ & _ & _ & Hkeep). by apply has_dirs_from_keeps.
Qed.

(** [os.makedirs] on a disk that does not refuse the call, where the
    directory exists: no error and no change. *)
Lemma os_makedirs_exists E path w :
  path <> "" ->
  env_fault E (w_trace w ++ [EvMakedirs path]) = false ->
  has_dirs (fs_nodes (w_fs w)) (parse_path path) = true ->
  os_makedirs E path w
  = (Return tt, {| w_trace := w_trace w ++ [EvMakedirs path];
                   w_fs := w_fs w |}).
Proof.
  intros Hpath Hdisk Hdirs. unfold os_makedirs, fs_call. rewrite Hdisk.
  rewrite (proj2 (String.eqb_neq path "") Hpath).
  unfold makedirs_nodes. rewrite makedirs_from_exists by done.
  by rewrite filesystem_eta.
Qed.

(** [os.makedirs] returns only when the directory and all above it
    exist, and it always records its call first. *)
Lemma os_makedirs_spec E path w :
  w_trace (os_makedirs E path w).2 = w_trace w ++ [EvMakedirs path]
  /\ ((os_makedirs E path w).1 = Return tt ->
      has_dirs (fs_nodes (w_fs (os_makedirs E path w).2)) (parse_path path)
      = true).
Proof.
  unfold os_makedirs, fs_call.
  destruct (env_fault E (w_trace w ++ [EvMakedirs path])); [done|].
  destruct (String.eqb path ""); [done|].
  pose proof (makedirs_from_ok (parse_path path).1 [] (parse_path path).2
                (fs_nodes (w_fs w))) as Hok.
  unfold makedirs_nodes, has_dirs.
  destruct (makedirs_from _ _ _ _) as [[|] m]; simpl in *; [|done].
  split; [done|]. intros _. by apply Hok.
Qed.

Lemma find_fs_call_app t1 t2 :
  forallb (fun e => negb (is_fs_call e)) t1 = true ->
  find is_fs_call (t1 ++ t2) = find is_fs_call t2.
Proof.
  induction t1 as [|e t1 IH]; simpl; [done|].
  intros [He H1]%andb_true_iff. apply negb_true_iff in He. rewrite He. auto.
Qed.

Lemma extends_then_log P w w' lvl msg :
  P (EvLog lvl msg) -> extends_with P w w' ->
  extends_with P w (log lvl msg w').2.
Proof.
  intros HP H. eapply extends_trans; [exact H|]. by apply adds_log.
Qed.

(** The loop only logs and sends requests for its hosts. *)
Lemma fetch_loop_request_to E code type verify hosts :
  adds (request_to hosts) (fetch_loop E code type verify hosts).
Proof.
  apply adds_fetch_loop; [done|]. intros h sup u Hh _ _.
  cbn [request_to]. by apply list_elem_of_fmap_2.
Qed.

(** The writing part of [getpdb] when an output directory is given,
    case by case. *)
Lemma getpdb_output_directory_eq E code type path data w :
  truthy path = true ->
  data <> [] ->
  let output := os_path_join (the path) (code +:+ "." +:+ lower type) in
  getpdb_output E code type path data w
  = match os_makedirs E (the path) (log INFO (MsgWriting output) w).2 with
    | (Return _, w2) =>
        match (let! handle := open_w E output in
               print_lines E data handle) w2 with
        | (Return _, w3) => log INFO MsgFinished w3
        | (Raise e, w3) => log ERROR (MsgException e) w3
        end
    | (Raise e, w2) => log ERROR (MsgException e) w2
    end.
Proof.
  intros Hpath Hdata output. unfold getpdb_output.
  destruct data as [|line rest] eqn:Hd; [done|]. rewrite <- Hd.
  rewrite Hpath. fold output.
  unfold bind at 1. cbn [log emit].
  unfold bind at 1, try_except, bind at 1, write_output. rewrite Hpath.
  unfold bind at 1.
  destruct (os_makedirs E (the path) _) as [[[]|e] w2]; [|reflexivity].
  destruct ((let! handle := open_w E output in print_lines E data handle) w2)
    as [[[]|e] w3]; reflexivity.
Qed.

(** With an output directory given, the first filesystem call of the
    writing part is the [makedirs] of that directory, and the file is
    opened only with the directory, and all above it, in place. *)
Lemma getpdb_output_directory E code type path data w :
  truthy path = true ->
  exists t,
    w_trace (getpdb_output E code type path data w).2 = w_trace w ++ t
    /\ (find is_fs_call t = None
        \/ find is_fs_call t = Some (EvMakedirs (the path)))
    /\ ((exists output, EvOpen output ∈ t) ->
        has_dirs (fs_nodes (w_fs (getpdb_output E code type path data w).2))
          (parse_path (the path)) = true).
Proof.
  intros Hpath.
  destruct data as [|line rest] eqn:Hd.
  { eexists. split; [reflexivity|]. split; [by left|].
    intros (o & Ho). apply list_elem_of_singleton in Ho. done. }
  rewrite <- Hd. assert (data <> []) as Hdata by (by rewrite Hd). clear Hd.
  rewrite getpdb_output_directory_eq by done.
  set (output := os_path_join (the path) (code +:+ "." +:+ lower type)).
  cbn [log emit snd].
  match goal with |- context [os_makedirs E (the path) ?x] => set (w1 := x) end.
  destruct (os_makedirs_spec E (the path) w1) as [Htr Hdirs].
  destruct (os_makedirs E (the path) w1) as [[[]|e] w2]; cbn [fst snd] in *.
  2:{ exists ([EvLog INFO (MsgWriting output); EvMakedirs (the path);
               EvLog ERROR (MsgException e)]).
      unfold log, emit. cbn [fst snd w_trace].
      split; [rewrite Htr; subst w1; cbn [w_trace];
              by rewrite <- !app_assoc|].
      split; [by right|].
      intros (o & Ho). apply list_elem_of_In in Ho. simpl in Ho.
      repeat destruct Ho as [Ho|Ho]; discriminate || contradiction. }
  specialize (Hdirs eq_refl).
  assert (adds (fun _ => True)
            (let! handle := open_w E output in print_lines E data handle))
    as Hrest.
  { apply adds_bind; [by apply adds_open_w|].
    intros handle. by apply adds_print_lines. }
  specialize (Hrest w2).
  destruct ((let! handle := open_w E output in print_lines E data handle) w2)
    as [[[]|e] w3]; cbn [snd] in Hrest;
    match goal with |- context [log ?l ?m w3] =>
      apply (extends_then_log _ _ _ l m I) in Hrest end;
    pose proof (extends_has_dirs _ _ _ _ Hrest Hdirs) as Hfinal;
    destruct Hrest as (t3 & Ht3 & _);
    (exists ([EvLog INFO (MsgWriting output); EvMakedirs (the path)] ++ t3));
    (split; [rewrite Ht3, Htr; subst w1; cbn [w_trace];
             by rewrite <- !app_assoc|]);
    (split; [by right|done]).
Qed.

(** C8: when an output directory is given, the first filesystem call of a
    run of [getpdb], if it makes any, is [os.makedirs] on that directory,
    so it comes before the output file is opened; a run that opens the
    output file ends with the directory, and every directory above it, in
    place; and creating is idempotent: where the directory and those above
    it exist, [os.makedirs] raises no error and leaves the filesystem as it
    is. *)
Theorem C8_output_directory_created_first
    E code type path verify w :
  truthy path = true ->
  (find is_fs_call (emitted (getpdb E code type path verify) w) = None
   \/ find is_fs_call (emitted (getpdb E code type path verify) w)
      = Some (EvMakedirs (the path)))
  /\ ((exists output,
         EvOpen output ∈ emitted (getpdb E code type path verify) w) ->
      has_dirs (fs_nodes (w_fs (getpdb E code type path verify w).2))
        (parse_path (the path)) = true
      /\ is_dir (fs_nodes (w_fs (getpdb E code type path verify w).2))
           (parse_path (the path)) = true)
  /\ (forall w',
        has_dirs (fs_nodes (w_fs w')) (parse_path (the path)) = true ->
        env_fault E (w_trace w' ++ [EvMakedirs (the path)]) = false ->
        os_makedirs E (the path) w'
        = (Return tt, {| w_trace := w_trace w' ++ [EvMakedirs (the path)];
                         w_fs := w_fs w' |})).
Proof.
  intros Hpath.
  assert (exists t1 t2,
    emitted (getpdb E code type path verify) w = t1 ++ t2
    /\ forallb (fun e => negb (is_fs_call e)) t1 = true
    /\ (find is_fs_call t2 = None
        \/ find is_fs_call t2 = Some (EvMakedirs (the path)))
    /\ ((exists output, EvOpen output ∈ t2) ->
        has_dirs (fs_nodes (w_fs (getpdb E code type path verify w).2))
          (parse_path (the path)) = true)) as (t1 & t2 & Hem & H1 & H2 & H3).
  { unfold emitted, getpdb, bind.
    destruct (fetch_loop_request_to E code (resolve_type code type) verify
                (keys DATABASE_HOSTS) w) as (t1 & Ht1 & F1 & _).
    assert (forallb (fun e => negb (is_fs_call e)) t1 = true) as Hno.
    { apply forallb_forall. intros e He. apply negb_true_iff.
      rewrite Forall_forall in F1.
      by apply (request_to_not_fs (keys DATABASE_HOSTS)), F1, list_elem_of_In. }
    destruct (fetch_loop E code (resolve_type code type) verify
                (keys DATABASE_HOSTS) w) as [[data|e] w1]; simpl in *.
    - destruct (getpdb_output_directory E code (resolve_type code type)
                  path data w1 Hpath) as (t2 & Ht2 & Hfind & Hopen).
      exists t1, t2. rewrite Ht2, Ht1, <- app_assoc, drop_app_length. done.
    - exists t1, []. rewrite Ht1, drop_app_length, app_nil_r.
      repeat split; [done|by left|].
      intros (o & Ho). by apply elem_of_nil in Ho. }
  split; [|split].
  - by rewrite Hem, find_fs_call_app.
  - intros (o & Ho). rewrite Hem in Ho.
    apply elem_of_app in Ho as [Ho|Ho].
    + rewrite forallb_forall in H1. apply list_elem_of_In, H1 in Ho. done.
    + assert (has_dirs (fs_nodes (w_fs (getpdb E code type path verify w).2))
                (parse_path (the path)) = true) as Hd by (apply H3; eauto).
      split; [done|by apply has_dirs_is_dir].
  - intros w' Hd Hdisk. apply os_makedirs_exists; [|done|done].
    by apply truthy_the.
Qed.

Lemma C8_output_directory_created_first_witness :
  find is_fs_call
    (emitted (getpdb env_rcsb "1LYZ" None (Some "out/pdb") true) empty_world)
  = Some (EvMakedirs "out/pdb")
  /\ has_dirs
       (fs_nodes (w_fs (getpdb env_rcsb "1LYZ" None (Some "out/pdb") true
                          empty_world).2))
       (false, ["out"; "pdb"]) = true
  /\ os_makedirs env_rcsb "out/pdb"
       (getpdb env_rcsb "1LYZ" None (Some "out/pdb") true empty_world).2
     = (Return tt,
        {| w_trace :=
             w_trace (getpdb env_rcsb "1LYZ" None (Some "out/pdb") true
                        empty_world).2 ++ [EvMakedirs "out/pdb"];
           w_fs := w_fs (getpdb env_rcsb "1LYZ" None (Some "out/pdb") true
                           empty_world).2 |}).
Proof.
  destruct (C8_output_directory_created_first
              env_rcsb "1LYZ" None (Some "out/pdb") true empty_world eq_refl)
    as (Hfirst & Hopen & Hagain).
  destruct Hopen as [Hdirs _].
  { exists "out/pdb/1LYZ.cif". apply list_elem_of_In. vm_compute. tauto. }
  split; [|split].
  - destruct Hfirst as [Hnone|Hsome]; [|exact Hsome].
    vm_compute in Hnone. discriminate.
  - exact Hdirs.
  - apply Hagain; [exact Hdirs|reflexivity].
Defined.


(** ** The ligand host *)

(** The attempt at the ligand host logs and sends one request, to the URL
    the code builds; its result is the text of the answer, split into
    lines, or what the request or the status check raises. *)
Lemma _getpdb_ligand E code type verify w :
  let url :=
    if bool_decide (lower type ∈ ["sdf"; "mol2"])
    then "https://files.rcsb.org/ligands/download/" +:+ upper code
         +:+ "_ideal." +:+ lower type
    else "https://files.rcsb.org/ligands/download/" +:+ upper code
         +:+ "." +:+ lower type in
  let w1 := (log INFO (MsgFetching (JStr url)) w).2 in
  _getpdb E code type "rcsb-ligand" verify w
  = (match env_net E (w_trace w1) url verify with
     | None => Raise RequestException
     | Some r =>
         if ((400 <=? status_code r) && (status_code r <? 600))%Z
         then Raise (HTTPError (status_code r))
         else Return (split nl (text r))
     end,
     {| w_trace := w_trace w ++ [EvLog INFO (MsgFetching (JStr url));
                                 EvGet "rcsb-ligand" url verify];
        w_fs := w_fs w |}).
Proof.
  intros url w1. unfold _getpdb.
  change (String.eqb (lower "rcsb-ligand") "rcsb") with false.
  change (String.eqb (lower "rcsb-ligand") "rcsb-ligand") with true.
  cbv iota. fold url.
  unfold bind at 1. cbn [log emit]. fold w1.
  unfold bind at 1, requests_get. subst w1. cbn [log emit snd w_trace w_fs].
  rewrite <- app_assoc. cbn [app].
  destruct (env_net E _ url verify) as [r|]; [|done].
  unfold bind, raise_for_status.
  by destruct ((400 <=? status_code r)%Z && (status_code r <? 600)%Z).
Qed.

(** C9: at the rcsb-ligand host the one request of an attempt goes, when
    the lower-cased type is "sdf" or "mol2", to the download URL with
    "_ideal" after the upper-cased identifier, and for every other type
    to the URL with the plain upper-cased identifier; whenever the request
    is answered with a status that is no error, the attempt returns the
    text of the answer split at newlines, with no decompression. *)
Theorem C9_ligand_ideal_suffix E code type verify w :
  let base := "https://files.rcsb.org/ligands/download/" in
  let ideal := base +:+ upper code +:+ "_ideal." +:+ lower type in
  let plain := base +:+ upper code +:+ "." +:+ lower type in
  (lower type = "sdf" \/ lower type = "mol2" ->
     requests (emitted (_getpdb E code type "rcsb-ligand" verify) w)
     = [(ideal, verify)])
  /\ (lower type <> "sdf" -> lower type <> "mol2" ->
     requests (emitted (_getpdb E code type "rcsb-ligand" verify) w)
     = [(plain, verify)])
  /\ (forall url r,
     requests (emitted (_getpdb E code type "rcsb-ligand" verify) w)
       = [(url, verify)] ->
     env_net E (w_trace w ++ [EvLog INFO (MsgFetching (JStr url))]) url verify
       = Some r ->
     (status_code r < 400 \/ 600 <= status_code r)%Z ->
     (_getpdb E code type "rcsb-ligand" verify w).1
     = Return (split nl (text r))).
Proof.
  intros base ideal plain. unfold emitted.
  rewrite _getpdb_ligand. cbn [fst snd w_trace log emit].
  rewrite drop_app_length. cbn [requests omap].
  fold base. fold ideal. fold plain.
  split; [|split].
  - intros Hty. rewrite bool_decide_eq_true_2; [done|].
    destruct Hty as [-> | ->]; [by left|by right; left].
  - intros Hsdf Hmol. rewrite bool_decide_eq_false_2; [done|].
    intros [?|[?|?%elem_of_nil]%elem_of_cons]%elem_of_cons; done.
  - intros url r [= <-] Hnet Hstatus. rewrite Hnet.
    replace ((400 <=? status_code r)%Z && (status_code r <? 600)%Z)
      with false by (symmetry; apply andb_false_iff; lia).
    done.
Qed.

Lemma C9_ligand_ideal_suffix_witness :
  requests (emitted (_getpdb env_up "atp" "SDF" "rcsb-ligand" true) empty_world)
  = [("https://files.rcsb.org/ligands/download/ATP_ideal.sdf", true)]
  /\ requests (emitted (_getpdb env_up "atp" "CIF" "rcsb-ligand" true) empty_world)
     = [("https://files.rcsb.org/ligands/download/ATP.cif", true)]
  /\ (_getpdb env_up "atp" "SDF" "rcsb-ligand" true empty_world).1
     = Return ["HEADER"; "END"].
Proof.
  destruct (C9_ligand_ideal_suffix env_up "atp" "SDF" true empty_world)
    as (Hideal & _ & Hresult).
  destruct (C9_ligand_ideal_suffix env_up "atp" "CIF" true empty_world)
    as (_ & Hplain & _).
  split; [|split].
  - apply Hideal. left. reflexivity.
  - apply Hplain; vm_compute; discriminate.
  - apply (Hresult "https://files.rcsb.org/ligands/download/ATP_ideal.sdf"
             (ok_response ("HEADER" +:+ String nl "" +:+ "END"))).
    + vm_compute. reflexivity.
    + reflexivity.
    + left. simpl. lia.
Defined.

(** ** What an attempt can raise *)

Lemma may_raise_ret {A} Q (a : A) : may_raise Q (ret a).
Proof. by intros w. Qed.

Lemma may_raise_raise {A} (Q : exn -> Prop) e : Q e -> may_raise Q (@raise A e).
Proof. by intros H w. Qed.

Lemma may_raise_bind {A B} Q (m : M A) (k : A -> M B) :
  may_raise Q m -> (forall a, may_raise Q (k a)) -> may_raise Q (bind m k).
Proof.
  intros Hm Hk w. unfold bind. specialize (Hm w).
  destruct (m w) as [[a|e] w1]; simpl in *; [apply Hk|done].
Qed.

Lemma may_raise_emit Q e : may_raise Q (emit e).
Proof. by intros w. Qed.

Lemma may_raise_log Q lvl msg : may_raise Q (log lvl msg).
Proof. apply may_raise_emit. Qed.

Lemma may_raise_requests_get E (Q : exn -> Prop) host url verify :
  Q RequestException -> may_raise Q (requests_get E host url verify).
Proof.
  intros H w. unfold requests_get.
  by destruct (env_net E (w_trace w) url verify).
Qed.

Lemma may_raise_fs_call {A} E (Q : exn -> Prop) e
    (op : filesystem -> outcome A * filesystem) :
  (forall errno, Q (OSError errno)) ->
  (forall f, match (op f).1 with
             | Raise (OSError _) | Return _ => True
             | _ => False
             end) ->
  may_raise Q (fs_call E e op).
Proof.
  intros HQ Hop w. unfold fs_call.
  destruct (env_fault E (w_trace w ++ [e])); [apply HQ|].
  specialize (Hop (w_fs w)).
  destruct (op (w_fs w)) as [[a|[]] f]; simpl in *; done.
Qed.

(** The file write raises nothing but [OSError]. *)
Lemma may_raise_write_output E (Q : exn -> Prop) data path output :
  (forall errno, Q (OSError errno)) ->
  may_raise Q (write_output E data path output).
Proof.
  intros HQ. unfold write_output.
  apply may_raise_bind; [|intros _; apply may_raise_bind; [|intros handle]].
  - destruct (truthy path); [|apply may_raise_ret].
    apply may_raise_fs_call; [done|]. intros f. cbv beta.
    destruct (String.eqb (the path) ""); [done|].
    by destruct (makedirs_nodes _ _) as [[|] m].
  - apply may_raise_fs_call; [done|]. intros f. cbv beta zeta.
    destruct (names_directory output); [done|].
    destruct (negb _); [done|].
    by destruct (fs_nodes f !! parse_path output) as [[|old]|].
  - induction data as [|line rest IH]; [apply may_raise_ret|].
    cbn [print_lines]. apply may_raise_bind; [|done].
    apply may_raise_fs_call; [done|]. intros f. cbv beta.
    by destruct (fs_nodes f !! handle) as [[|old]|].
Qed.

(** An attempt raises "Invalid file type" at no host but alphafold, and
    not there when the type is one alphafold lists. *)
Lemma _getpdb_may_raise E code type host verify :
  (lower host = "alphafold" ->
   lower type = "cif" \/ lower type = "bcif" \/ lower type = "pdb") ->
  may_raise (fun e => is_invalid_file_type e = false)
    (_getpdb E code type host verify).
Proof.
  intros Hty. unfold _getpdb.
  assert (forall r, may_raise (fun e => is_invalid_file_type e = false)
                      (raise_for_status r)) as Hstatus.
  { intros r. unfold raise_for_status.
    case_match; [by apply may_raise_raise|apply may_raise_ret]. }
  assert (forall v key, may_raise (fun e => is_invalid_file_type e = false)
                          (item v key)) as Hitem.
  { intros v key. unfold item.
    repeat case_match; first [apply may_raise_ret|by apply may_raise_raise]. }
  destruct (String.eqb (lower host) "rcsb").
  { repeat (apply may_raise_bind; [|intros ?]);
      first [apply may_raise_log | by apply may_raise_requests_get
            | apply Hstatus | apply may_raise_ret | idtac].
    - unfold gzip_decompress.
      case_match; [apply may_raise_ret|by apply may_raise_raise].
    - unfold decode_ascii.
      case_match; [apply may_raise_ret|by apply may_raise_raise]. }
  destruct (String.eqb (lower host) "rcsb-ligand").
  { repeat (apply may_raise_bind; [|intros ?]);
      first [apply may_raise_log | by apply may_raise_requests_get
            | apply Hstatus | apply may_raise_ret]. }
  destruct (String.eqb (lower host) "pubchem").
  { repeat (apply may_raise_bind; [|intros ?]);
      first [apply may_raise_log | by apply may_raise_requests_get
            | apply Hstatus | apply may_raise_ret]. }
  destruct (String.eqb (lower host) "alphafold") eqn:Hhost;
    [|by apply may_raise_raise].
  apply String.eqb_eq in Hhost. specialize (Hty Hhost).
  repeat (apply may_raise_bind; [|intros ?]);
    first [apply may_raise_log | by apply may_raise_requests_get
          | apply Hstatus | apply may_raise_ret | idtac].
  - unfold response_json.
    case_match; [apply may_raise_ret|by apply may_raise_raise].
  - unfold item0.
    repeat case_match; first [apply may_raise_ret|by apply may_raise_raise].
  - destruct Hty as [-> | [-> | ->]]; apply Hitem.
  - unfold requests_get_value.
    case_match; first [by apply may_raise_requests_get
                      |by apply may_raise_raise].
Qed.

Lemma adds_try_except_raising {A} P Q (m : M A) (h : exn -> M A) :
  adds P m -> may_raise Q m -> (forall e, Q e -> adds P (h e)) ->
  adds P (try_except m h).
Proof.
  intros Hm Hq Hh w. unfold try_except. specialize (Hm w). specialize (Hq w).
  destruct (m w) as [[a|e] w1]; simpl in *; [done|].
  eapply extends_trans; [exact Hm|by apply Hh].
Qed.

Lemma alphafold_types type supported :
  get DATABASE_HOSTS "alphafold" = Some supported ->
  type ∈ supported ->
  type = "cif" \/ type = "bcif" \/ type = "pdb".
Proof.
  intros [= <-] H.
  repeat (apply elem_of_cons in H as [->|H]; [tauto|]).
  by apply elem_of_nil in H.
Qed.

(** The loop never logs an "Invalid file type" exception. *)
Lemma fetch_loop_not_invalid E code type verify hosts :
  hosts ⊆ keys DATABASE_HOSTS ->
  adds not_invalid_logged (fetch_loop E code type verify hosts).
Proof.
  induction hosts as [|host rest IH]; intros Hsub; cbn [fetch_loop].
  { apply adds_ret. }
  assert (adds not_invalid_logged (fetch_loop E code type verify rest))
    as Hrest.
  { apply IH. intros x Hx. apply Hsub. by right. }
  assert (lower host = host) as Hlow.
  { apply lower_registry, Hsub. by left. }
  destruct (get DATABASE_HOSTS host) as [sup|] eqn:Hsup; [|apply adds_raise].
  destruct (bool_decide (lower type ∈ sup)) eqn:Hin; simpl.
  - apply bool_decide_eq_true in Hin.
    apply adds_bind; [|intros [data|]; [apply adds_ret|done]].
    apply (adds_try_except_raising _
             (fun e => is_invalid_file_type e = false)).
    + apply adds_bind; [|intros; apply adds_ret].
      by apply adds__getpdb.
    + apply may_raise_bind; [|intros; apply may_raise_ret].
      apply _getpdb_may_raise. rewrite Hlow. intros ->.
      by apply (alphafold_types _ sup).
    + intros e He. apply adds_bind; [by apply adds_log|intros; apply adds_ret].
  - apply adds_bind; [by apply adds_log|done].
Qed.

(** Nor does the rest of [getpdb]. *)
Lemma getpdb_output_not_invalid E code type path data :
  adds not_invalid_logged (getpdb_output E code type path data).
Proof.
  unfold getpdb_output.
  destruct data as [|line data]; [by apply adds_log|].
  apply adds_bind; [by apply adds_log|intros _].
  apply adds_bind.
  - apply (adds_try_except_raising _
             (fun e => is_invalid_file_type e = false)).
    + apply adds_bind; [|intros; apply adds_ret].
      apply adds_write_output. by intros [].
    + apply may_raise_bind; [|intros; apply may_raise_ret].
      by apply may_raise_write_output.
    + intros e He. apply adds_bind; [by apply adds_log|intros; apply adds_ret].
  - intros [|]; [by apply adds_log|apply adds_ret].
Qed.

(** C10: a request of a run of [getpdb] goes to alphafold only when the
    lower-cased type is "cif", "bcif" or "pdb", the types of the alphafold
    registry entry; with such a type the alphafold branch of [_getpdb]
    never raises "Invalid file type"; and so no run of [getpdb] ever logs
    that exception. *)
Theorem C10_invalid_file_type_unreachable :
  (forall E code type path verify w,
     "alphafold" ∈ contacted (emitted (getpdb E code type path verify) w) ->
     lower (resolve_type code type) = "cif"
     \/ lower (resolve_type code type) = "bcif"
     \/ lower (resolve_type code type) = "pdb")
  /\ (forall E code type verify w,
     lower type = "cif" \/ lower type = "bcif" \/ lower type = "pdb" ->
     is_invalid_file_type
       (match (_getpdb E code type "alphafold" verify w).1 with
        | Raise e => e
        | Return _ => RequestException
        end) = false)
  /\ (forall E code type path verify w,
     Forall not_invalid_logged (emitted (getpdb E code type path verify) w)).
Proof.
  split; [|split].
  - intros E code type path verify w Hin.
    destruct (decide (lower (resolve_type code type)
                        ∈ ["cif"; "bcif"; "pdb"])) as [Hyes|Hno].
    + by apply (alphafold_types _ ["cif"; "bcif"; "pdb"]).
    + by apply (getpdb_never_contacts_unsupported E code type path verify w
                  "alphafold" ["cif"; "bcif"; "pdb"]) in Hin.
  - intros E code type verify w Hty.
    pose proof (_getpdb_may_raise E code type "alphafold" verify
                  (fun _ => Hty) w) as H.
    by destruct (_getpdb E code type "alphafold" verify w).1.
  - intros E code type path verify w. apply extends_emitted.
    revert w. unfold getpdb. apply adds_bind.
    + by apply fetch_loop_not_invalid.
    + intros data. apply getpdb_output_not_invalid.
Qed.

Lemma C10_invalid_file_type_unreachable_witness :
  lower (resolve_type "P00698" None) = "cif"
  /\ is_invalid_file_type
       (match (_getpdb env_up "P00698" "CIF" "alphafold" true empty_world).1 with
        | Raise e => e
        | Return _ => RequestException
        end) = false.
Proof.
  destruct C10_invalid_file_type_unreachable as (Hpre & Hbranch & _).
  split.
  - destruct (Hpre env_down "P00698" None None true empty_world)
      as [H|[H|H]]; [|exact H|vm_compute in H; discriminate
                     |vm_compute in H; discriminate].
    apply list_elem_of_In. vm_compute. tauto.
  - apply Hbranch. left. reflexivity.
Defined.

(** * More of the program *)

(** ** Splitting and printing *)

Lemma unlines_split s : unlines (split nl s) = s +:+ String nl "".
Proof.
  induction s as [|c s IH]; [reflexivity|].
  cbn [split]. destruct (Ascii.eqb c nl) eqn:Hc.
  - apply Ascii.eqb_eq in Hc. subst c.
    cbn [unlines foldr]. fold (unlines (split nl s)). by rewrite IH.
  - destruct (split nl s) as [|l ls] eqn:Hs; [by apply split_not_nil in Hs|].
    cbn [unlines foldr] in *. fold (unlines ls) in *.
    by rewrite append_cons, IH.
Qed.

(** X1: printing, line by line, the lines a text splits into at
    newlines gives the text back, followed by one newline: on a disk that
    refuses nothing, the loop of [print] over [text.split("\n")] turns an
    empty file into the text and a final newline. *)
Theorem split_print_round_trip E text handle w :
  (forall t, env_fault E t = false) ->
  fs_nodes (w_fs w) !! handle = Some (File "") ->
  (print_lines E (split nl text) handle w).1 = Return tt
  /\ fs_nodes (w_fs (print_lines E (split nl text) handle w).2) !! handle
     = Some (File (text +:+ String nl "")).
Proof.
  intros Hdisk Hfile.
  rewrite (print_lines_ok E _ handle "") by done.
  cbn [fst snd w_fs fs_nodes]. split; [done|].
  by rewrite lookup_insert_eq, unlines_split.
Qed.

Lemma split_print_round_trip_witness :
  fs_nodes (w_fs (print_lines env_up
                    (split nl ("a" +:+ String nl "" +:+ "b"))
                    (false, ["1LYZ.cif"])
                    {| w_trace := [];
                       w_fs := {| fs_nodes := {[ (false, ["1LYZ.cif"]) := File "" ]};
                                  fs_open := [] |} |}).2)
    !! (false, ["1LYZ.cif"])
  = Some (File (("a" +:+ String nl "" +:+ "b") +:+ String nl "")).
Proof.
  apply (split_print_round_trip env_up).
  - reflexivity.
  - vm_compute. reflexivity.
Defined.

(** ** The host names *)

Lemma lower_char_idemp c : lower_char (lower_char c) = lower_char c.
Proof.
  destruct c as [[] [] [] [] [] [] [] []]; reflexivity.
Qed.

Lemma lower_idemp s : lower (lower s) = lower s.
Proof.
  induction s as [|c s IH]; [done|]. simpl. by rewrite lower_char_idemp, IH.
Qed.

(** X2: [_getpdb] tells hosts apart by their lower-cased name: a name
    that is none of the four, whatever its case, raises "Unknown host"
    with that name before any call is made; and two names with the same
    lower-cased form that is one of the four give the same attempt. *)
Theorem host_names_ignore_case E code type host verify w :
  (lower host ∉ keys DATABASE_HOSTS ->
   _getpdb E code type host verify w = (Raise (UnknownHost host), w))
  /\ (forall host',
        lower host' = lower host ->
        lower host ∈ keys DATABASE_HOSTS ->
        _getpdb E code type host' verify w = _getpdb E code type host verify w).
Proof.
  split.
  - intros Hno. unfold _getpdb.
    repeat (destruct (String.eqb (lower host) _) eqn:Heq;
            [apply String.eqb_eq in Heq; exfalso; apply Hno; rewrite Heq;
             apply (bool_decide_unpack _); vm_compute; reflexivity
            |clear Heq]).
    reflexivity.
  - intros host' Hsame Hin. unfold _getpdb. rewrite Hsame.
    destruct (String.eqb (lower host) "rcsb") eqn:H1; [reflexivity|].
    destruct (String.eqb (lower host) "rcsb-ligand") eqn:H2; [reflexivity|].
    destruct (String.eqb (lower host) "pubchem") eqn:H3; [reflexivity|].
    destruct (String.eqb (lower host) "alphafold") eqn:H4; [reflexivity|].
    exfalso. apply String.eqb_neq in H1, H2, H3, H4.
    repeat (apply elem_of_cons in Hin as [Hin|Hin]; [done|]).
    by apply elem_of_nil in Hin.
Qed.

Lemma host_names_ignore_case_witness :
  _getpdb env_up "1LYZ" "cif" "ftp" true empty_world
  = (Raise (UnknownHost "ftp"), empty_world)
  /\ _getpdb env_up "1LYZ" "cif" "RCSB" true empty_world
     = _getpdb env_up "1LYZ" "cif" "rcsb" true empty_world.
Proof.
  split.
  - apply (proj1 (host_names_ignore_case env_up "1LYZ" "cif" "ftp" true
                    empty_world)).
    apply (bool_decide_eq_false_1 _). vm_compute. reflexivity.
  - apply (proj2 (host_names_ignore_case env_up "1LYZ" "cif" "rcsb" true
                    empty_world)).
    + reflexivity.
    + apply (bool_decide_unpack _). vm_compute. reflexivity.
Defined.

(** ** The attempts, host by host *)

Lemma status_ok_test r :
  (status_code r < 400 \/ 600 <= status_code r)%Z <->
  ((400 <=? status_code r) && (status_code r <? 600))%Z = false.
Proof. rewrite andb_false_iff, Z.leb_gt, Z.ltb_ge. tauto. Qed.




(** X4: the attempt at pubchem makes one request, to the record URL of
    the identifier exactly as given (it is not upper-cased here) and the
    upper-cased type, asking for the 3-D record; it returns exactly when
    the answer has a status that is no error, and then returns the text
    of the answer split at newlines. *)
Theorem pubchem_attempt E code type verify w :
  let url := "https://pubchem.ncbi.nlm.nih.gov/rest/pug/compound/CID/"
             +:+ code +:+ "/record/" +:+ upper type +:+ "?record_type=3d" in
  let answer := env_net E (w_trace w ++ [EvLog INFO (MsgFetching (JStr url))])
                  url verify in
  emitted (_getpdb E code type "pubchem" verify) w
    = [EvLog INFO (MsgFetching (JStr url)); EvGet "pubchem" url verify]
  /\ w_fs (_getpdb E code type "pubchem" verify w).2 = w_fs w
  /\ (forall data,
        (_getpdb E code type "pubchem" verify w).1 = Return data <->
        exists r,
          answer = Some r
          /\ (status_code r < 400 \/ 600 <= status_code r)%Z
          /\ data = split nl (text r)).
Proof.
  intros url answer.
  assert (_getpdb E code type "pubchem" verify w
          = (match answer with
             | None => Raise RequestException
             | Some r =>
                 if ((400 <=? status_code r) && (status_code r <? 600))%Z
                 then Raise (HTTPError (status_code r))
                 else Return (split nl (text r))
             end,
             {| w_trace := w_trace w ++ [EvLog INFO (MsgFetching (JStr url));
                                         EvGet "pubchem" url verify];
                w_fs := w_fs w |})) as Heq.
  { unfold _getpdb.
    change (String.eqb (lower "pubchem") "rcsb") with false.
    change (String.eqb (lower "pubchem") "rcsb-ligand") with false.
    change (String.eqb (lower "pubchem") "pubchem") with true.
    cbv iota. fold url.
    unfold bind at 1. cbn [log emit].
    unfold bind at 1, requests_get. cbn [w_trace w_fs]. fold answer.
    rewrite <- app_assoc. cbn [app].
    destruct answer as [r|]; [|done].
    unfold bind, raise_for_status.
    by destruct ((400 <=? status_code r)%Z && (status_code r <? 600)%Z). }
  unfold emitted. rewrite Heq. cbn [fst snd w_trace w_fs].
  split; [by rewrite drop_app_length|]. split; [done|].
  intros data. split.
  - destruct answer as [r|]; [|done].
    destruct ((400 <=? status_code r)%Z && (status_code r <? 600)%Z)
      eqn:Hst; [done|].
    intros [= <-]. exists r. by rewrite status_ok_test.
  - intros (r & -> & Hst & ->). apply status_ok_test in Hst. by rewrite Hst.
Qed.

Lemma pubchem_attempt_witness :
  (_getpdb env_up "2244" "sdf" "pubchem" true empty_world).1
  = Return ["HEADER"; "END"].
Proof.
  apply (proj2 (proj2 (pubchem_attempt env_up "2244" "sdf" true empty_world))).
  exists (ok_response ("HEADER" +:+ String nl "" +:+ "END")).
  repeat split; try reflexivity. left. simpl. lia.
Defined.

(** What is left of the alphafold attempt once the prediction service
    has answered with [r]: lines 96-109. *)
Lemma _getpdb_alphafold E code type verify w :
  let url := "https://alphafold.ebi.ac.uk/api/prediction/" +:+ upper code in
  _getpdb E code type "alphafold" verify w
  = let w1 := {| w_trace := w_trace w ++ [EvLog INFO (MsgFetching (JStr url));
                                          EvGet "alphafold" url verify];
                 w_fs := w_fs w |} in
    match env_net E (w_trace w ++ [EvLog INFO (MsgFetching (JStr url))])
            url verify with
    | None => (Raise RequestException, w1)
    | Some r =>
        (raise_for_status r ;;
         let! doc := response_json r in
         let! meta := item0 doc in
         let! url :=
           if String.eqb (lower type) "cif" then item meta "cifUrl"
           else if String.eqb (lower type) "bcif" then item meta "bcifUrl"
           else if String.eqb (lower type) "pdb" then item meta "pdbUrl"
           else raise (InvalidFileType type) in
         log INFO (MsgFetching url) ;;
         let! response := requests_get_value E "alphafold" url verify in
         raise_for_status response ;;
         ret (split nl (text response))) w1
    end.
Proof.
  intros url. unfold _getpdb.
  change (String.eqb (lower "alphafold") "rcsb") with false.
  change (String.eqb (lower "alphafold") "rcsb-ligand") with false.
  change (String.eqb (lower "alphafold") "pubchem") with false.
  change (String.eqb (lower "alphafold") "alphafold") with true.
  cbv iota. fold url.
  unfold bind at 1. cbn [log emit].
  unfold bind at 1, requests_get. cbn [w_trace w_fs].
  rewrite <- app_assoc. cbn [app].
  by destruct (env_net E _ url verify) as [r|].
Qed.

(** A step that stays inside the interpreter leaves the world alone. *)
Lemma bind_pure {A B} (m : M A) (k : A -> M B) w :
  (m w).2 = w ->
  bind m k w = match (m w).1 with
               | Return a => k a w
               | Raise e => (Raise e, w)
               end.
Proof.
  unfold bind. destruct (m w) as [[a|e] w']; simpl; by intros ->.
Qed.

Lemma raise_for_status_pure r w : (raise_for_status r w).2 = w.
Proof. unfold raise_for_status. by case_match. Qed.

Lemma response_json_pure r w : (response_json r w).2 = w.
Proof. unfold response_json. by case_match. Qed.

Lemma item0_pure doc w : (item0 doc w).2 = w.
Proof. unfold item0. by repeat case_match. Qed.

Lemma item_pure v key w : (item v key w).2 = w.
Proof. unfold item. by repeat case_match. Qed.

(** [doc[0]] is the first entry of a list, or the first character of a
    text. *)
Lemma item0_returns doc meta w :
  (item0 doc w).1 = Return meta ->
  (exists rest, doc = JArr (meta :: rest)) \/ (exists c, meta = JStr c).
Proof.
  unfold item0. destruct doc as [| | |s|items|]; try done.
  - destruct s; [done|]. intros [= <-]. right. eauto.
  - destruct items as [|x items]; [done|]. intros [= <-]. left. eauto.
Qed.

(** [meta[key]] returns only what an object holds under the key. *)
Lemma item_returns meta key v w :
  (item meta key w).1 = Return v ->
  exists members, meta = JObj members /\ assoc key members = Some v.
Proof.
  unfold item. destruct meta as [| | | | |members]; try done.
  destruct (assoc key members) as [x|] eqn:Hx; [|done].
  intros [= <-]. eauto.
Qed.

(** Lines 98-105: the URL of the model is read from the field named
    after the lower-cased type. *)
Lemma alphafold_select type meta w :
  let select :=
    if String.eqb (lower type) "cif" then item meta "cifUrl"
    else if String.eqb (lower type) "bcif" then item meta "bcifUrl"
    else if String.eqb (lower type) "pdb" then item meta "pdbUrl"
    else raise (InvalidFileType type) in
  (select w).2 = w
  /\ forall v, (select w).1 = Return v ->
       exists members,
         meta = JObj members
         /\ assoc (lower type +:+ "Url") members = Some v.
Proof.
  cbv zeta.
  destruct (String.eqb (lower type) "cif") eqn:H1.
  { apply String.eqb_eq in H1. rewrite H1.
    split; [apply item_pure|]. intros v Hv.
    exact (item_returns meta "cifUrl" v w Hv). }
  destruct (String.eqb (lower type) "bcif") eqn:H2.
  { apply String.eqb_eq in H2. rewrite H2.
    split; [apply item_pure|]. intros v Hv.
    exact (item_returns meta "bcifUrl" v w Hv). }
  destruct (String.eqb (lower type) "pdb") eqn:H3.
  { apply String.eqb_eq in H3. rewrite H3.
    split; [apply item_pure|]. intros v Hv.
    exact (item_returns meta "pdbUrl" v w Hv). }
  by split.
Qed.

(** Lines 106-109: the second request. *)
Lemma alphafold_model E (v : jvalue) verify w :
  exists t,
    w_trace ((log INFO (MsgFetching v) ;;
              let! response := requests_get_value E "alphafold" v verify in
              raise_for_status response ;;
              ret (split nl (text response))) w).2 = w_trace w ++ t
    /\ (requests t = []
        \/ exists model, v = JStr model /\ requests t = [(model, verify)]).
Proof.
  unfold bind at 1. cbn [log emit].
  destruct v as [|b|n|model|items|members];
    try (eexists; split; [reflexivity|by left]).
  exists [EvLog INFO (MsgFetching (JStr model)); EvGet "alphafold" model verify].
  split; [|right; by exists model].
  unfold bind at 1, requests_get_value, requests_get. cbn [w_trace w_fs].
  rewrite <- app_assoc. cbn [app].
  destruct (env_net E _ model verify) as [r|]; [|done].
  rewrite bind_pure by apply raise_for_status_pure.
  by destruct (raise_for_status r _).1.
Qed.

(** X5: the alphafold attempt asks the prediction service about the
    upper-cased identifier and makes at most one more request: a second
    request is made only when the service answered, with a status that is
    no error, a JSON list whose first entry is an object that holds a
    text under "cifUrl", "bcifUrl" or "pdbUrl" (the lower-cased type and
    "Url"), and it goes to that text; an empty list raises [IndexError]
    after the one request. *)
Theorem alphafold_attempt E code type verify w :
  let url := "https://alphafold.ebi.ac.uk/api/prediction/" +:+ upper code in
  let answer := env_net E (w_trace w ++ [EvLog INFO (MsgFetching (JStr url))])
                  url verify in
  (requests (emitted (_getpdb E code type "alphafold" verify) w)
     = [(url, verify)]
   \/ exists r members rest model,
        answer = Some r
        /\ (status_code r < 400 \/ 600 <= status_code r)%Z
        /\ json r = Some (JArr (JObj members :: rest))
        /\ assoc (lower type +:+ "Url") members = Some (JStr model)
        /\ requests (emitted (_getpdb E code type "alphafold" verify) w)
           = [(url, verify); (model, verify)])
  /\ (forall r,
        answer = Some r ->
        (status_code r < 400 \/ 600 <= status_code r)%Z ->
        json r = Some (JArr []) ->
        (_getpdb E code type "alphafold" verify w).1 = Raise IndexError
        /\ requests (emitted (_getpdb E code type "alphafold" verify) w)
           = [(url, verify)]).
Proof.
  intros url answer.
  set (w1 := {| w_trace := w_trace w ++ [EvLog INFO (MsgFetching (JStr url));
                                         EvGet "alphafold" url verify];
                w_fs := w_fs w |}).
  assert (forall (x : outcome (list string) * world) t,
            w_trace x.2 = w_trace w1 ++ t ->
            requests (drop (List.length (w_trace w)) (w_trace x.2))
            = (url, verify) :: requests t) as Hreq.
  { intros x t ->. subst w1. cbn [w_trace].
    by rewrite <- app_assoc, drop_app_length. }
  set (R := requests (emitted (_getpdb E code type "alphafold" verify) w)).
  set (O := (_getpdb E code type "alphafold" verify w).1).
  assert (R = requests (drop (List.length (w_trace w))
                          (w_trace (_getpdb E code type "alphafold" verify w).2))
          /\ O = (_getpdb E code type "alphafold" verify w).1) as [HR HO]
    by done.
  clearbody R O. rewrite _getpdb_alphafold in HR, HO.
  fold url in HR, HO. fold answer in HR, HO. cbv zeta in HR, HO.
  fold w1 in HR, HO.
  split.
  - clear HO. destruct answer as [r|] eqn:Hnet.
    2:{ left. by rewrite (Hreq _ []) in HR by (by rewrite app_nil_r). }
    rewrite bind_pure in HR by apply raise_for_status_pure.
    unfold raise_for_status at 1 in HR.
    destruct ((400 <=? status_code r)%Z && (status_code r <? 600)%Z) eqn:Hst.
    { left. by rewrite (Hreq _ []) in HR by (by rewrite app_nil_r). }
    apply status_ok_test in Hst. cbn [ret fst] in HR.
    rewrite bind_pure in HR by apply response_json_pure.
    unfold response_json at 1 in HR.
    destruct (json r) as [doc|] eqn:Hjson.
    2:{ left. by rewrite (Hreq _ []) in HR by (by rewrite app_nil_r). }
    cbn [ret fst] in HR.
    rewrite bind_pure in HR by apply item0_pure.
    destruct (item0 doc w1).1 as [meta|e] eqn:Hmeta.
    2:{ left. by rewrite (Hreq _ []) in HR by (by rewrite app_nil_r). }
    destruct (alphafold_select type meta w1) as [Hpure Hsel].
    rewrite bind_pure in HR by exact Hpure.
    match type of HR with
    | context [match ?x with Return _ => _ | Raise _ => _ end] =>
        destruct x as [v|e] eqn:Hv
    end.
    2:{ left. by rewrite (Hreq _ []) in HR by (by rewrite app_nil_r). }
    destruct (Hsel v eq_refl) as (members & -> & Hassoc).
    destruct (alphafold_model E v verify w1) as (t & Ht & Hcases).
    rewrite (Hreq _ t Ht) in HR.
    destruct Hcases as [Hnone | (model & -> & Hone)].
    { left. by rewrite Hnone in HR. }
    right. apply item0_returns in Hmeta as [(rest & ->)|(c & [=])].
    exists r, members, rest, model. rewrite Hone in HR. done.
  - intros r Hr Hst Hjson. rewrite Hr in HR, HO.
    apply status_ok_test in Hst.
    rewrite bind_pure in HR, HO by apply raise_for_status_pure.
    unfold raise_for_status at 1 in HR. unfold raise_for_status at 1 in HO.
    rewrite Hst in HR, HO. cbn [ret fst] in HR, HO.
    rewrite bind_pure in HR, HO by apply response_json_pure.
    unfold response_json at 1 in HR. unfold response_json at 1 in HO.
    rewrite Hjson in HR, HO. cbn [ret fst] in HR, HO.
    rewrite bind_pure in HR, HO by apply item0_pure.
    cbn [item0 raise fst] in HR, HO. split; [done|].
    by rewrite (Hreq _ []) in HR by (by rewrite app_nil_r).
Qed.

Lemma alphafold_attempt_witness :
  requests (emitted (_getpdb env_alphafold "p00698" "CIF" "alphafold" false)
              empty_world)
  = [("https://alphafold.ebi.ac.uk/api/prediction/P00698", false);
     ("https://alphafold.ebi.ac.uk/files/AF-P00698-F1-model_v4.cif", false)]
  /\ (_getpdb env_up "p00698" "CIF" "alphafold" false
        {| w_trace := []; w_fs := w_fs empty_world |}).1 = Raise JSONDecodeError.
Proof.
  split; [|vm_compute; reflexivity].
  destruct (proj1 (alphafold_attempt env_alphafold "p00698" "CIF" false
                     empty_world))
    as [Hone|(r & members & rest & model & _ & _ & _ & _ & Htwo)].
  - vm_compute in Hone. discriminate.
  - rewrite Htwo. vm_compute in Htwo. by injection Htwo as <-.
Defined.

(** ** Runs of [getpdb] *)

(** X6: [getpdb] hands its [verify] argument on unchanged: every request
    of a run carries it. *)
Theorem getpdb_passes_verify E code type path verify w :
  Forall (eq verify)
    (verify_flags (emitted (getpdb E code type path verify) w)).
Proof.
  apply verify_flags_Forall, extends_emitted, adds_getpdb.
  - done.
  - done.
  - by intros [].
Qed.

Lemma attempts_fail_unsupported E code type verify hosts w :
  Forall (fun host => exists supported,
            get DATABASE_HOSTS host = Some supported
            /\ lower type ∉ supported) hosts ->
  attempts_fail E code type verify hosts w
    {| w_trace := w_trace w
         ++ ((fun host => EvLog WARNING (MsgNoSupport host type)) <$> hosts);
       w_fs := w_fs w |}.
Proof.
  intros H. revert w.
  induction H as [|host hosts (sup & Hsup & Hno) _ IH]; intros w.
  - rewrite fmap_nil, app_nil_r, world_eta. apply fail_nil.
  - eapply fail_skip; [exact Hsup|by apply bool_decide_eq_false_2|].
    specialize (IH (log WARNING (MsgNoSupport host type) w).2).
    cbn [log emit snd w_trace w_fs] in *.
    rewrite <- app_assoc in IH. by rewrite fmap_cons.
Qed.

(** X7: with a type that no host lists, a run contacts nobody and writes
    nothing: its calls are one warning per host, in registry order, and
    the error "Could not fetch", and the filesystem is as before. *)
Theorem getpdb_type_nobody_supports E code type path verify w :
  (forall supported,
     supported ∈ DATABASE_HOSTS.*2 ->
     lower (resolve_type code type) ∉ supported) ->
  emitted (getpdb E code type path verify) w
  = [EvLog WARNING (MsgNoSupport "rcsb" (resolve_type code type));
     EvLog WARNING (MsgNoSupport "rcsb-ligand" (resolve_type code type));
     EvLog WARNING (MsgNoSupport "pubchem" (resolve_type code type));
     EvLog WARNING (MsgNoSupport "alphafold" (resolve_type code type));
     EvLog ERROR (MsgCouldNotFetch code (resolve_type code type))]
  /\ w_fs (getpdb E code type path verify w).2 = w_fs w.
Proof.
  intros Hno.
  assert (attempts_fail E code (resolve_type code type) verify
            (keys DATABASE_HOSTS) w
            {| w_trace := w_trace w
                 ++ ((fun host => EvLog WARNING
                                    (MsgNoSupport host (resolve_type code type)))
                       <$> keys DATABASE_HOSTS);
               w_fs := w_fs w |}) as Hfail.
  { apply attempts_fail_unsupported.
    repeat (constructor;
            [eexists; split;
             [reflexivity
             |apply Hno, (bool_decide_unpack _); vm_compute; reflexivity]|]).
    constructor. }
  unfold emitted. rewrite (getpdb_attempts_fail _ _ _ _ _ _ _ Hfail).
  cbn [log emit snd w_trace w_fs]. split; [|done].
  by rewrite <- app_assoc, drop_app_length.
Qed.

Lemma getpdb_type_nobody_supports_witness :
  emitted (getpdb env_up "1LYZ" (Some "txt") (Some "out") true) empty_world
  = [EvLog WARNING (MsgNoSupport "rcsb" "txt");
     EvLog WARNING (MsgNoSupport "rcsb-ligand" "txt");
     EvLog WARNING (MsgNoSupport "pubchem" "txt");
     EvLog WARNING (MsgNoSupport "alphafold" "txt");
     EvLog ERROR (MsgCouldNotFetch "1LYZ" "txt")].
Proof.
  apply (getpdb_type_nobody_supports env_up "1LYZ" (Some "txt") (Some "out")
           true empty_world).
  intros supported Hin.
  change (lower (resolve_type "1LYZ" (Some "txt"))) with "txt".
  repeat (apply elem_of_cons in Hin as [->|Hin];
          [apply (bool_decide_eq_false_1 _); vm_compute; reflexivity|]).
  by apply elem_of_nil in Hin.
Defined.

(** The loop logs warnings and "Fetching" lines and sends requests;
    nothing else. *)
Lemma adds_fetch_loop_logs E P code type verify hosts :
  (forall url, P (EvLog INFO (MsgFetching url))) ->
  (forall msg, P (EvLog WARNING msg)) ->
  (forall host url, P (EvGet host url verify)) ->
  adds P (fetch_loop E code type verify hosts).
Proof.
  intros Hinfo Hwarn Hget.
  induction hosts as [|host rest IH]; cbn [fetch_loop]; [apply adds_ret|].
  destruct (get DATABASE_HOSTS host) as [sup|]; [|apply adds_raise].
  destruct (negb (bool_decide (lower type ∈ sup))).
  - apply adds_bind; [by apply adds_log|done].
  - apply adds_bind; [|intros [data|]; [apply adds_ret|done]].
    apply adds_try_except.
    + apply adds_bind; [|intros; apply adds_ret]. by apply adds__getpdb.
    + intros e. apply adds_bind; [by apply adds_log|intros; apply adds_ret].
Qed.

(** A run is its loop, which leaves the filesystem alone and returns some
    data, followed by what is done with the data. *)
Lemma getpdb_run E code type path verify w :
  exists data w1 t,
    fetch_loop E code (resolve_type code type) verify (keys DATABASE_HOSTS) w
      = (Return data, w1)
    /\ w_trace w1 = w_trace w ++ t
    /\ Forall loop_call t
    /\ w_fs w1 = w_fs w
    /\ getpdb E code type path verify w
       = getpdb_output E code (resolve_type code type) path data w1.
Proof.
  destruct (fetch_loop_returns E code (resolve_type code type) verify
              (keys DATABASE_HOSTS) w) as (data & w1 & Hloop).
  { repeat constructor; by eexists. }
  pose proof (adds_fetch_loop_logs E loop_call code (resolve_type code type)
                verify (keys DATABASE_HOSTS)) as Hadds.
  destruct Hadds with (w := w) as (t & Ht & Ft & Hfs & _); try done.
  rewrite Hloop in Ht, Hfs. cbn [snd] in Ht, Hfs.
  exists data, w1, t. repeat split; try done.
  - apply Hfs, forallb_forall. intros e He. apply negb_true_iff.
    rewrite Forall_forall in Ft. by apply Ft, list_elem_of_In.
  - unfold getpdb, bind. by rewrite Hloop.
Qed.

(** With data, what is left of [getpdb] is the write and one closing
    line. *)
Lemma getpdb_output_eq E code type path data w :
  data <> [] ->
  getpdb_output E code type path data w
  = match write_output E data path (output_name code type path)
            (log INFO (MsgWriting (output_name code type path)) w).2 with
    | (Return _, w2) => log INFO MsgFinished w2
    | (Raise e, w2) => log ERROR (MsgException e) w2
    end.
Proof.
  intros Hdata. unfold getpdb_output, output_name.
  destruct data as [|line rest] eqn:Hd; [done|]. rewrite <- Hd.
  cbv zeta. unfold bind at 1. cbn [log emit].
  unfold bind at 1, try_except, bind at 1.
  by destruct (write_output E data path _ _) as [[[]|e] w2].
Qed.

(** The calls after the loop: the line "Writing output", filesystem
    calls, and one closing line at the end. *)
Lemma getpdb_output_closing E code type path data w :
  exists t e,
    w_trace (getpdb_output E code type path data w).2 = w_trace w ++ t ++ [e]
    /\ Forall (fun x => is_error_log x = false /\ is_finished_log x = false) t
    /\ (e = EvLog INFO MsgFinished \/ is_error_log e = true).
Proof.
  destruct data as [|line rest] eqn:Hd.
  { exists [], (EvLog ERROR (MsgCouldNotFetch code type)).
    split; [done|]. split; [constructor|by right]. }
  rewrite <- Hd. assert (data <> []) as Hdata by (by rewrite Hd). clear Hd.
  rewrite getpdb_output_eq by done.
  set (output := output_name code type path).
  destruct (adds_write_output E (fun x => is_fs_call x = true) data path output
              (fun _ H => H) (log INFO (MsgWriting output) w).2)
    as (t & Ht & Ft & _).
  destruct (write_output E data path output _) as [[[]|err] w2];
    cbn [snd log emit w_trace] in *;
    [exists (EvLog INFO (MsgWriting output) :: t), (EvLog INFO MsgFinished)
    |exists (EvLog INFO (MsgWriting output) :: t),
            (EvLog ERROR (MsgException err))];
    (split; [by rewrite Ht, <- !app_assoc|]);
    (split; [|by eauto]);
    (constructor; [done|]);
    (eapply Forall_impl; [exact Ft|]);
    by intros [].
Qed.

(** X8: every run of [getpdb] ends with exactly one closing line, and it
    is the last call of the run: either "Finished" or one logged at ERROR
    level; no other call of the run is "Finished" or at ERROR level. *)
Theorem getpdb_closing_line E code type path verify w :
  exists t e,
    emitted (getpdb E code type path verify) w = t ++ [e]
    /\ Forall (fun x => is_error_log x = false /\ is_finished_log x = false) t
    /\ (e = EvLog INFO MsgFinished \/ is_error_log e = true).
Proof.
  unfold emitted.
  destruct (getpdb_run E code type path verify w)
    as (data & w1 & t1 & _ & Ht1 & F1 & _ & ->).
  destruct (getpdb_output_closing E code (resolve_type code type) path data w1)
    as (t2 & e & Ht2 & F2 & He).
  exists (t1 ++ t2), e.
  rewrite Ht2, Ht1, <- !app_assoc, drop_app_length.
  split; [done|]. split; [|done].
  apply Forall_app. split; [|done].
  eapply Forall_impl; [exact F1|]. by intros x (? & ? & _).
Qed.

(** ** What a run does to the filesystem *)

(** A filesystem call records itself and then is refused or run. *)
Lemma fs_call_cases {A} E e (op : filesystem -> outcome A * filesystem) w :
  w_trace (fs_call E e op w).2 = w_trace w ++ [e]
  /\ ((fs_call E e op w).1 = Raise (OSError "EIO")
      /\ w_fs (fs_call E e op w).2 = w_fs w
      \/ (fs_call E e op w).1 = (op (w_fs w)).1
         /\ w_fs (fs_call E e op w).2 = (op (w_fs w)).2).
Proof.
  unfold fs_call. destruct (env_fault E (w_trace w ++ [e])).
  - split; [done|by left].
  - destruct (op (w_fs w)) as [r f]. split; [done|by right].
Qed.








Lemma keeps_except_log p lvl msg : keeps_except p (log lvl msg).
Proof. by intros w q n. Qed.








(** ** The file a run opens *)

Lemma filter_none (f : event -> bool) t :
  Forall (fun e => f e = false) t -> filter (fun e => f e = true) t = [].
Proof.
  induction 1 as [|e t He _ IH]; [done|].
  rewrite filter_cons_False; [done|]. by rewrite He.
Qed.

Lemma open_w_trace E path w :
  w_trace (open_w E path w).2 = w_trace w ++ [EvOpen path].
Proof.
  unfold open_w.
  match goal with |- context [fs_call E ?e ?op w] =>
    by destruct (fs_call_cases E e op w) as [-> _]
  end.
Qed.

(** The write opens at most one file, under the name it is given. *)
Lemma write_output_opens E data path output w :
  exists t,
    w_trace (write_output E data path output w).2 = w_trace w ++ t
    /\ (filter (fun e => is_open e = true) t = []
        \/ filter (fun e => is_open e = true) t = [EvOpen output]).
Proof.
  unfold write_output, bind.
  assert (exists t0,
    w_trace ((if truthy path then os_makedirs E (the path) else ret tt) w).2
      = w_trace w ++ t0
    /\ filter (fun e => is_open e = true) t0 = []) as (t0 & Ht0 & F0).
  { destruct (truthy path).
    - exists [EvMakedirs (the path)]. split; [|done].
      apply os_makedirs_spec.
    - exists []. by rewrite app_nil_r. }
  destruct ((if truthy path then os_makedirs E (the path) else ret tt) w)
    as [[[]|e] w1]; cbn [snd] in *.
  2:{ exists t0. split; [done|by left]. }
  pose proof (open_w_trace E output w1) as Hopen.
  destruct (open_w E output w1) as [[handle|e] w2]; cbn [snd] in *.
  2:{ exists (t0 ++ [EvOpen output]).
      split; [by rewrite Hopen, Ht0, <- app_assoc|].
      right. by rewrite filter_app, F0. }
  destruct (adds_print_lines E (fun e => is_open e = false) data handle
              (fun _ => eq_refl) w2) as (t2 & Ht2 & F2 & _).
  exists (t0 ++ [EvOpen output] ++ t2).
  split; [by rewrite Ht2, Hopen, Ht0, <- !app_assoc|].
  right. rewrite !filter_app, F0, (filter_none is_open t2 F2). done.
Qed.

(** The output step opens nothing, or its output name once. *)
Lemma getpdb_output_opens E code type path data w :
  exists t,
    w_trace (getpdb_output E code type path data w).2 = w_trace w ++ t
    /\ (filter (fun e => is_open e = true) t = []
        \/ filter (fun e => is_open e = true) t
           = [EvOpen (output_name code type path)]).
Proof.
  destruct data as [|line rest] eqn:Hd.
  { exists [EvLog ERROR (MsgCouldNotFetch code type)]. split; [done|by left]. }
  rewrite <- Hd. assert (data <> []) as Hdata by (by rewrite Hd). clear Hd.
  rewrite getpdb_output_eq by done.
  set (output := output_name code type path).
  destruct (write_output_opens E data path output
              (log INFO (MsgWriting output) w).2) as (t & Ht & Hopens).
  destruct (write_output E data path output _) as [[[]|err] w2];
    cbn [snd log emit w_trace] in *; rewrite Ht, <- !app_assoc;
    eexists; (split; [reflexivity|]);
    rewrite !filter_app; cbn [app];
    (rewrite filter_cons_False by done);
    (destruct Hopens as [-> | ->]; [left|right]; done).
Qed.

(** The calls of the loop open no file. *)
Lemma loop_opens_nothing t :
  Forall loop_call t -> filter (fun e => is_open e = true) t = [].
Proof.
  intros F. apply filter_none. eapply Forall_impl; [exact F|].
  intros [] (_ & _ & H); done.
Qed.

(** X11: a run of [getpdb] calls [open] at most once, and only on its
    output name: the identifier as given, a dot and the lower-cased type,
    joined to the output directory when one is given. *)
Theorem getpdb_opens_one_file E code type path verify w :
  filter (fun e => is_open e = true) (emitted (getpdb E code type path verify) w)
    = []
  \/ filter (fun e => is_open e = true)
       (emitted (getpdb E code type path verify) w)
     = [EvOpen (output_name code (resolve_type code type) path)].
Proof.
  unfold emitted.
  destruct (getpdb_run E code type path verify w)
    as (data & w1 & t1 & _ & Ht1 & F1 & _ & ->).
  destruct (getpdb_output_opens E code (resolve_type code type) path data w1)
    as (t2 & -> & Hopens).
  rewrite Ht1, <- app_assoc, drop_app_length, filter_app.
  rewrite (loop_opens_nothing t1 F1). exact Hopens.
Qed.

Lemma is_absolute_append code rest :
  is_absolute code = true -> is_absolute (code +:+ rest) = true.
Proof. by destruct code. Qed.

(** X12: the identifier is not checked before it becomes a file name:
    when it starts with a slash, the output directory is left out of the
    name, and the one file a run may open is the absolute path made of
    the identifier, a dot and the lower-cased type. *)
Theorem absolute_identifier_escapes_directory E code type path verify w :
  is_absolute code = true ->
  output_name code (resolve_type code type) path
    = code +:+ "." +:+ lower (resolve_type code type)
  /\ (filter (fun e => is_open e = true)
        (emitted (getpdb E code type path verify) w) = []
      \/ filter (fun e => is_open e = true)
           (emitted (getpdb E code type path verify) w)
         = [EvOpen (code +:+ "." +:+ lower (resolve_type code type))]).
Proof.
  intros Habs.
  assert (output_name code (resolve_type code type) path
          = code +:+ "." +:+ lower (resolve_type code type)) as Hname.
  { unfold output_name, os_path_join.
    destruct (truthy path); [|done].
    by rewrite is_absolute_append. }
  split; [done|]. rewrite <- Hname. unfold emitted.
  destruct (getpdb_run E code type path verify w)
    as (data & w1 & t1 & _ & Ht1 & F1 & _ & ->).
  destruct (getpdb_output_opens E code (resolve_type code type) path data w1)
    as (t2 & -> & Hopens).
  rewrite Ht1, <- app_assoc, drop_app_length, filter_app.
  rewrite (loop_opens_nothing t1 F1). exact Hopens.
Qed.

Lemma absolute_identifier_escapes_directory_witness :
  filter (fun e => is_open e = true)
    (emitted (getpdb env_up "/tmp/ATP" (Some "sdf") (Some "out") true)
       empty_world)
  = [EvOpen "/tmp/ATP.sdf"].
Proof.
  destruct (absolute_identifier_escapes_directory env_up "/tmp/ATP"
              (Some "sdf") (Some "out") true empty_world eq_refl)
    as [_ [Hnone|Hone]].
  - vm_compute in Hnone. discriminate.
  - exact Hone.
Defined.

(** ** Runs of [main] *)





(** Each run of [getpdb] logs one closing line. *)
Lemma getpdb_closing_count E code type path verify w :
  List.length (filter (fun e => is_error_log e = true)
                 (emitted (getpdb E code type path verify) w))
  + List.length (filter (fun e => is_finished_log e = true)
                   (emitted (getpdb E code type path verify) w)) = 1.
Proof.
  unfold emitted.
  destruct (getpdb_run E code type path verify w)
    as (data & w1 & t1 & _ & Ht1 & F1 & _ & ->).
  destruct (getpdb_output_closing E code (resolve_type code type) path data w1)
    as (t2 & e & Ht2 & F2 & He).
  rewrite Ht2, Ht1, <- !app_assoc, drop_app_length, app_assoc.
  assert (Forall (fun x => is_error_log x = false /\ is_finished_log x = false)
            (t1 ++ t2)) as Ft.
  { apply Forall_app. split; [|done].
    eapply Forall_impl; [exact F1|]. by intros x (? & ? & _). }
  revert Ft. generalize (t1 ++ t2). intros t Ft.
  rewrite !filter_app.
  rewrite (filter_none is_error_log t), (filter_none is_finished_log t).
  - destruct He as [-> | He]; [done|].
    destruct e as [| [] [] | | |]; done.
  - eapply Forall_impl; [exact Ft|]. by intros ? [_ ?].
  - eapply Forall_impl; [exact Ft|]. by intros ? [? _].
Qed.

Lemma main_loop_closing_count E args codes w :
  exists t,
    w_trace (main_loop E args codes w).2 = w_trace w ++ t
    /\ List.length (filter (fun e => is_error_log e = true) t)
       + List.length (filter (fun e => is_finished_log e = true) t)
       = List.length codes.
Proof.
  revert w. induction codes as [|code rest IH]; intros w.
  { exists []. by rewrite app_nil_r. }
  cbn [main_loop]. unfold bind.
  pose proof (getpdb_closing_count E code (args_type args) (args_dir args)
                (args_verify args) w) as Hone.
  destruct (adds_getpdb E (fun _ => True) code (args_type args)
              (args_dir args) (args_verify args)) with (w := w)
    as (t1 & Ht1 & _); try done.
  rewrite (emitted_eq _ _ _ Ht1) in Hone.
  pose proof (getpdb_returns E code (args_type args) (args_dir args)
                (args_verify args) w) as Hret.
  destruct (getpdb E code _ _ _ w) as [[[]|e] w1]; [|done].
  cbn [snd] in *. destruct (IH w1) as (t2 & Ht2 & Hrest).
  exists (t1 ++ t2). split; [by rewrite Ht2, Ht1, app_assoc|].
  rewrite !filter_app, !length_app. cbn [List.length]. lia.
Qed.

Lemma console_quiet t :
  console false t = filter (fun e => is_error_log e = true) t.
Proof.
  unfold console. apply list_filter_iff. intros [| [] m | | |]; done.
Qed.

(** X14: a run of [main] logs one closing line per identifier, an ERROR
    line for one that failed and "Finished" for one whose file was
    written; without [--verbose], when the logger is at level ERROR, the
    console shows the ERROR lines and nothing else, so a run shows one
    line for each identifier that failed and none for the others. *)
Theorem main_console_one_line_per_failure E c w :
  List.length (console false (emitted (main E c) w))
  + List.length (filter (fun e => is_finished_log e = true)
                   (emitted (main E c) w))
  = List.length (cl_code c)
  /\ Forall (fun e => is_error_log e = true)
       (console false (emitted (main E c) w)).
Proof.
  rewrite console_quiet. split.
  - unfold emitted, main, parse_args.
    destruct (cl_code c) as [|code rest] eqn:Hc.
    { cbn [ret snd]. by rewrite drop_all. }
    destruct (main_loop_closing_count E
                {| args_code := code :: rest; args_type := cl_o c;
                   args_dir := cl_dir c; args_verbose := cl_verbose c;
                   args_verify := cl_no_ssl_verify c |} (code :: rest) w)
      as (t & Ht & Hcount).
    cbn [args_code]. by rewrite Ht, drop_app_length.
  - apply Forall_forall. by intros e [He _]%list_elem_of_filter.
Qed.

(** ** How many requests a run makes *)

Lemma makes_requests_le {A} n n' (m : M A) :
  n <= n' -> makes_requests n m -> makes_requests n' m.
Proof.
  intros Hle Hm w. destruct (Hm w) as (t & Ht & Hn).
  exists t. split; [done|lia].
Qed.

Lemma makes_requests_ret {A} (a : A) : makes_requests 0 (ret a).
Proof. intros w. exists []. by rewrite app_nil_r. Qed.

Lemma makes_requests_raise {A} e : makes_requests 0 (@raise A e).
Proof. intros w. exists []. by rewrite app_nil_r. Qed.

Lemma makes_requests_pure {A} (m : M A) :
  (forall w, (m w).2 = w) -> makes_requests 0 m.
Proof. intros H w. exists []. by rewrite H, app_nil_r. Qed.

Lemma makes_requests_log lvl msg : makes_requests 0 (log lvl msg).
Proof. intros w. by exists [EvLog lvl msg]. Qed.

Lemma makes_requests_bind {A B} a b (m : M A) (k : A -> M B) :
  makes_requests a m -> (forall x, makes_requests b (k x)) ->
  makes_requests (a + b) (bind m k).
Proof.
  intros Hm Hk w. unfold bind. destruct (Hm w) as (t1 & Ht1 & H1).
  destruct (m w) as [[x|e] w1]; cbn [snd] in *.
  - destruct (Hk x w1) as (t2 & Ht2 & H2). exists (t1 ++ t2).
    split; [by rewrite Ht2, Ht1, app_assoc|].
    unfold requests in *. rewrite omap_app, length_app. lia.
  - exists t1. split; [done|lia].
Qed.

Lemma makes_requests_try_except {A} a b (m : M A) (h : exn -> M A) :
  makes_requests a m -> (forall e, makes_requests b (h e)) ->
  makes_requests (a + b) (try_except m h).
Proof.
  intros Hm Hh w. unfold try_except. destruct (Hm w) as (t1 & Ht1 & H1).
  destruct (m w) as [[x|e] w1]; cbn [snd] in *.
  - exists t1. split; [done|lia].
  - destruct (Hh e w1) as (t2 & Ht2 & H2). exists (t1 ++ t2).
    split; [by rewrite Ht2, Ht1, app_assoc|].
    unfold requests in *. rewrite omap_app, length_app. lia.
Qed.

Lemma makes_requests_get E host url verify :
  makes_requests 1 (requests_get E host url verify).
Proof.
  intros w. exists [EvGet host url verify]. split; [|done].
  unfold requests_get. by destruct (env_net E (w_trace w) url verify).
Qed.

Lemma makes_requests_get_value E host url verify :
  makes_requests 1 (requests_get_value E host url verify).
Proof.
  destruct url; try (apply (makes_requests_le 0); [lia|];
                     apply makes_requests_raise).
  apply makes_requests_get.
Qed.

(** What is done with the response of every branch but the first: the
    status check and the split. *)
Lemma makes_requests_finish (r : response) :
  makes_requests 0 (raise_for_status r ;; ret (split nl (text r))).
Proof.
  apply (makes_requests_bind 0 0).
  - apply makes_requests_pure, raise_for_status_pure.
  - intros _. apply makes_requests_ret.
Qed.

(** An attempt makes one request, or at most two at alphafold. *)
Lemma _getpdb_makes_requests E code type host verify :
  makes_requests (attempt_cost host) (_getpdb E code type host verify).
Proof.
  unfold _getpdb, attempt_cost.
  destruct (String.eqb (lower host) "rcsb") eqn:H1.
  { apply String.eqb_eq in H1. rewrite H1.
    change (String.eqb "rcsb" "alphafold") with false. cbv iota.
    apply (makes_requests_bind 0 1); [apply makes_requests_log|intros _].
    apply (makes_requests_bind 1 0); [apply makes_requests_get|intros r].
    apply (makes_requests_bind 0 0);
      [apply makes_requests_pure, raise_for_status_pure|intros _].
    apply (makes_requests_bind 0 0).
    { apply makes_requests_pure. intros w. unfold gzip_decompress.
      by case_match. }
    intros raw. apply (makes_requests_bind 0 0).
    { apply makes_requests_pure. intros w. unfold decode_ascii.
      by case_match. }
    intros txt. apply makes_requests_ret. }
  destruct (String.eqb (lower host) "rcsb-ligand") eqn:H2.
  { apply String.eqb_eq in H2. rewrite H2.
    change (String.eqb "rcsb-ligand" "alphafold") with false. cbv iota.
    apply (makes_requests_bind 0 1); [apply makes_requests_log|intros _].
    apply (makes_requests_bind 1 0); [apply makes_requests_get|intros r].
    apply makes_requests_finish. }
  destruct (String.eqb (lower host) "pubchem") eqn:H3.
  { apply String.eqb_eq in H3. rewrite H3.
    change (String.eqb "pubchem" "alphafold") with false. cbv iota.
    apply (makes_requests_bind 0 1); [apply makes_requests_log|intros _].
    apply (makes_requests_bind 1 0); [apply makes_requests_get|intros r].
    apply makes_requests_finish. }
  destruct (String.eqb (lower host) "alphafold") eqn:H4.
  2:{ apply (makes_requests_le 0); [lia|apply makes_requests_raise]. }
  apply (makes_requests_bind 0 2); [apply makes_requests_log|intros _].
  apply (makes_requests_bind 1 1); [apply makes_requests_get|intros r].
  apply (makes_requests_bind 0 1);
    [apply makes_requests_pure, raise_for_status_pure|intros _].
  apply (makes_requests_bind 0 1);
    [apply makes_requests_pure, response_json_pure|intros doc].
  apply (makes_requests_bind 0 1);
    [apply makes_requests_pure, item0_pure|intros meta].
  apply (makes_requests_bind 0 1).
  { apply makes_requests_pure. intros w. apply alphafold_select. }
  intros url.
  apply (makes_requests_bind 0 1); [apply makes_requests_log|intros _].
  apply (makes_requests_bind 1 0); [apply makes_requests_get_value|intros r2].
  apply makes_requests_finish.
Qed.

Lemma fetch_loop_makes_requests E code type verify hosts :
  makes_requests (request_budget type hosts)
    (fetch_loop E code type verify hosts).
Proof.
  induction hosts as [|host rest IH]; cbn [fetch_loop request_budget].
  { apply makes_requests_ret. }
  destruct (get DATABASE_HOSTS host) as [sup|]; [|apply makes_requests_raise].
  destruct (bool_decide (lower type ∈ sup)); cbn [negb].
  - apply (makes_requests_bind (attempt_cost host) (request_budget type rest)).
    + replace (attempt_cost host) with (attempt_cost host + 0 + 0) by lia.
      apply makes_requests_try_except.
      * apply makes_requests_bind; [apply _getpdb_makes_requests|].
        intros data. apply makes_requests_ret.
      * intros e. apply (makes_requests_bind 0 0);
          [apply makes_requests_log|intros; apply makes_requests_ret].
    + intros [data|]; [|done].
      apply (makes_requests_le 0); [lia|apply makes_requests_ret].
  - apply (makes_requests_bind 0); [apply makes_requests_log|done].
Qed.

(** No type is listed by both pubchem and alphafold, so the hosts that
    support a type cost at most four requests together. *)
Lemma request_budget_registry type :
  request_budget type (keys DATABASE_HOSTS) <= 4.
Proof.
  set (alphafold := if bool_decide (lower type ∈ ["cif"; "bcif"; "pdb"])
                   then 2 + 0 else 0).
  set (pubchem := if bool_decide (lower type ∈ ["sdf"; "json"; "xml"; "asnt"])
                 then 1 + alphafold else alphafold).
  set (ligand := if bool_decide (lower type ∈ ["cif"; "sdf"; "mol2"])
                then 1 + pubchem else pubchem).
  assert (request_budget type (keys DATABASE_HOSTS)
          = if bool_decide (lower type ∈ ["pdb"; "cif"; "bcif"; "xml"])
            then 1 + ligand else ligand) as -> by reflexivity.
  subst ligand pubchem alphafold.
  destruct (bool_decide (lower type ∈ ["sdf"; "json"; "xml"; "asnt"])) eqn:Hp;
    destruct (bool_decide (lower type ∈ ["cif"; "bcif"; "pdb"])) eqn:Ha;
    repeat case_match; try lia.
  exfalso. apply bool_decide_eq_true in Hp, Ha.
  repeat (apply elem_of_cons in Hp as [Hp|Hp];
          [rewrite Hp in Ha; revert Ha; apply (bool_decide_eq_false_1 _);
           vm_compute; reflexivity|]).
  by apply elem_of_nil in Hp.
Qed.

Lemma requests_no_get t :
  Forall (fun e => is_get e = false) t -> requests t = [].
Proof.
  unfold requests. induction 1 as [|e t He _ IH]; simpl; [done|].
  by destruct e.
Qed.

(** X15: a run of [getpdb] makes at most four requests -- an attempt
    makes one, or two at alphafold, and no type is listed by all four
    hosts; four are reached when the three hosts that list "cif" are all
    tried and the prediction service answers with a model URL. *)
Theorem getpdb_at_most_four_requests :
  (forall E code type path verify w,
     List.length (requests (emitted (getpdb E code type path verify) w)) <= 4)
  /\ List.length (requests (emitted (getpdb env_alphafold "P00698" None None
                                       true) empty_world)) = 4.
Proof.
  split; [|vm_compute; reflexivity].
  intros E code type path verify w. unfold emitted.
  assert (getpdb E code type path verify w
          = bind (fetch_loop E code (resolve_type code type) verify
                    (keys DATABASE_HOSTS))
                 (getpdb_output E code (resolve_type code type) path) w)
    as -> by reflexivity.
  pose proof (request_budget_registry (resolve_type code type)) as Hbudget.
  destruct (makes_requests_bind
              (request_budget (resolve_type code type) (keys DATABASE_HOSTS)) 0
              (fetch_loop E code (resolve_type code type) verify
                 (keys DATABASE_HOSTS))
              (getpdb_output E code (resolve_type code type) path))
    with (w := w) as (t & Ht & Hn).
  - apply fetch_loop_makes_requests.
  - intros data w1.
    destruct (adds_getpdb_output E (fun e => is_get e = false)
                code (resolve_type code type) path data) with (w := w1)
      as (t & Ht & F & _); [done|by intros []|].
    exists t. split; [done|]. by rewrite (requests_no_get t F).
  - rewrite Ht, drop_app_length. lia.
Qed.

(** ** The formatter *)

Lemma FORMATS_get_other levelno :
  levelno <> 10%Z -> levelno <> 20%Z -> levelno <> 30%Z ->
  levelno <> 40%Z -> levelno <> 50%Z ->
  CustomFormatter.FORMATS_get CustomFormatter.FORMATS levelno = None.
Proof.
  intros H1 H2 H3 H4 H5. unfold CustomFormatter.FORMATS.
  cbn [CustomFormatter.FORMATS_get].
  by rewrite !(proj2 (Z.eqb_neq _ _)).
Qed.

(** X16: the formatter renders a record at DEBUG or INFO level as
    "[time] file:line:LEVEL: message", and one at WARNING, ERROR or
    CRITICAL level as the same line between a colour sequence (yellow,
    red, bold red) and the reset sequence; the message is copied as it
    is. *)
Theorem custom_formatter_lines record :
  (rec_levelno record = 10%Z \/ rec_levelno record = 20%Z ->
   CustomFormatter.format record = Some (plain_line record))
  /\ (rec_levelno record = 30%Z ->
      CustomFormatter.format record
      = Some (ESC +:+ "[33;20m" +:+ plain_line record +:+ ESC +:+ "[0m"))
  /\ (rec_levelno record = 40%Z ->
      CustomFormatter.format record
      = Some (ESC +:+ "[31;20m" +:+ plain_line record +:+ ESC +:+ "[0m"))
  /\ (rec_levelno record = 50%Z ->
      CustomFormatter.format record
      = Some (ESC +:+ "[31;1m" +:+ plain_line record +:+ ESC +:+ "[0m")).
Proof.
  unfold CustomFormatter.format, plain_line.
  repeat split.
  - rewrite <- (append_nil_r (rec_message record)).
    intros [-> | ->]; reflexivity.
  - intros ->. rewrite !append_assoc. reflexivity.
  - intros ->. rewrite !append_assoc. reflexivity.
  - intros ->. rewrite !append_assoc. reflexivity.
Qed.

Lemma custom_formatter_lines_witness :
  CustomFormatter.format (sample_record 40)
  = Some (ESC +:+ "[31;20m"
          +:+ "[2024-03-20 10:00:00,000] getpdb.py:160:ERROR: Could not fetch '1LYZ.cif'"
          +:+ ESC +:+ "[0m").
Proof.
  apply (proj1 (proj2 (proj2 (custom_formatter_lines (sample_record 40))))).
  reflexivity.
Defined.

(** X17: [FORMATS] has entries for the five standard levels only; a
    record at any other level finds none, the formatter falls back to
    the default format of [logging.Formatter], and the line is the bare
    message, with no time, place or level. *)
Theorem custom_formatter_other_level record :
  rec_levelno record <> 10%Z -> rec_levelno record <> 20%Z ->
  rec_levelno record <> 30%Z -> rec_levelno record <> 40%Z ->
  rec_levelno record <> 50%Z ->
  CustomFormatter.format record = Some (rec_message record).
Proof.
  intros H1 H2 H3 H4 H5. unfold CustomFormatter.format.
  rewrite FORMATS_get_other by done.
  rewrite <- (append_nil_r (rec_message record)). reflexivity.
Qed.

Lemma custom_formatter_other_level_witness :
  CustomFormatter.format (sample_record 25)
  = Some "Could not fetch '1LYZ.cif'".
Proof.
  apply (custom_formatter_other_level (sample_record 25)); simpl; lia.
Defined.
